(** * pythagora-lab: routes/index.js

    A shallow embedding of the Express router of [src/routes/index.js]:
    the file routes (select, rename, upload, delete) over the uploads
    directory and the process-wide [global.dbPath], and the [/projects]
    route that resolves the navigation view.

    Library calls are modelled by their documented behaviour:
    - [node:path] (POSIX flavour) in [Module Path];
    - [node:fs] in [Module Fs], as a finite map from paths of regular
      files to their contents: [unlink] fails exactly when the path
      names no file, [rename] when the source names no file or the
      target ends with a separator;
    - [multer] and [sqlite3] inside the upload route.
    The query functions of [utils/projectQueries] are parameters of the
    development. *)

From Stdlib Require Import ZArith String Ascii List Lia Permutation Sorted.
From Stdlib Require Import DecimalString DecimalN.
From stdpp Require Import gmap strings list.
Import ListNotations.

Local Open Scope string_scope.
Local Open Scope Z_scope.

(** ** JavaScript values reaching the router *)

Module JS.

(** A request field ([req.body.x], [req.query.x]) is [undefined] or a
    string. *)
Definition field : Type := option string.

(** [ToBoolean]: [undefined] and the empty string are falsy. *)
Definition truthy (v : field) : bool :=
  match v with
  | None => false
  | Some s => negb (String.eqb s "")
  end.

(** [a || b] on fields, as used in a condition. *)
Definition any_truthy (vs : list field) : bool := existsb truthy vs.

(** The string held by a truthy field. *)
Definition str (v : field) : string := default "" v.

End JS.

(** ** node:path *)

Module Path.

(** A normalized absolute path: its segments from the root, and
    whether the string ends with a separator.  Two normalized absolute
    path strings are equal ([===]) exactly when these agree. *)
Record t : Type := mk { segs : list string; trailing : bool }.

#[global] Instance t_eq_dec : EqDecision t.
Proof. solve_decision. Defined.

#[global] Instance t_countable : Countable t.
Proof.
  apply (inj_countable' (fun p => (segs p, trailing p))
                        (fun q => mk (fst q) (snd q))).
  now intros [].
Defined.

Definition slash : ascii := "/"%char.
Definition dot : ascii := "."%char.

(** [s.split('/')] *)
Fixpoint split_go (cur : string) (s : string) : list string :=
  match s with
  | EmptyString => [cur]
  | String c rest =>
      if Ascii.eqb c slash then cur :: split_go "" rest
      else split_go (cur ++ String c "") rest
  end.

Definition split (s : string) : list string := split_go "" s.

Fixpoint last_char (s : string) : option ascii :=
  match s with
  | EmptyString => None
  | String c EmptyString => Some c
  | String _ rest => last_char rest
  end.

Definition ends_with_slash (s : string) : bool :=
  match last_char s with
  | Some c => Ascii.eqb c slash
  | None => false
  end.

(** One segment of [normalizeString] on an absolute path
    ([allowAboveRoot = false]); the accumulator is kept innermost
    segment first. *)
Definition norm_step (acc : list string) (seg : string) : list string :=
  if String.eqb seg "" then acc
  else if String.eqb seg "." then acc
  else if String.eqb seg ".." then tl acc
  else seg :: acc.

Definition norm_segs (l : list string) : list string :=
  rev (fold_left norm_step l []).

(** A segment that normalization keeps. *)
Definition plain (seg : string) : Prop :=
  seg <> "" /\ seg <> "." /\ seg <> "..".

(** [path.join(base, name)] for an absolute [base]: empty arguments
    are skipped, the rest are joined with a separator and normalized;
    a trailing separator survives unless the result is the root. *)
Definition join (base : t) (name : string) : t :=
  let s := norm_segs (segs base ++ split name)%list in
  let tr := if String.eqb name "" then trailing base
            else ends_with_slash name in
  mk s (tr && negb (bool_decide (s = []))).

(** [dir] is a proper ancestor of [p]. *)
Definition inside (dir p : t) : Prop :=
  exists rest, rest <> [] /\ segs p = (segs dir ++ rest)%list.

(** *** [path.extname] *)

Record ext_state : Type := mk_ext {
  startDot : Z; startPart : Z; end_ : Z;
  matchedSlash : bool; preDotState : Z; stopped : bool }.

Definition ext_init : ext_state := mk_ext (-1) 0 (-1) true 0 false.

(** The body of the loop [for (i = path.length - 1; i >= 0; --i)];
    [stopped] records the [break]. *)
Definition ext_step (st : ext_state) (ic : Z * ascii) : ext_state :=
  let (i, code) := ic in
  if stopped st then st
  else if Ascii.eqb code slash then
    if negb (matchedSlash st)
    then mk_ext (startDot st) (i + 1) (end_ st) (matchedSlash st)
                (preDotState st) true
    else st
  else
    let st1 :=
      if end_ st =? -1
      then mk_ext (startDot st) (startPart st) (i + 1) false
                  (preDotState st) false
      else st in
    if Ascii.eqb code dot then
      if startDot st1 =? -1
      then mk_ext i (startPart st1) (end_ st1) (matchedSlash st1)
                  (preDotState st1) false
      else if negb (preDotState st1 =? 1)
      then mk_ext (startDot st1) (startPart st1) (end_ st1)
                  (matchedSlash st1) 1 false
      else st1
    else if negb (startDot st1 =? -1)
    then mk_ext (startDot st1) (startPart st1) (end_ st1)
                (matchedSlash st1) (-1) false
    else st1.

Definition indexed (s : string) : list (Z * ascii) :=
  combine (map Z.of_nat (seq 0 (String.length s))) (list_ascii_of_string s).

Definition slice (s : string) (from to : Z) : string :=
  substring (Z.to_nat from) (Z.to_nat (to - from)) s.

Definition extname (p : string) : string :=
  let st := fold_left ext_step (rev (indexed p)) ext_init in
  if (startDot st =? -1) || (end_ st =? -1) || (preDotState st =? 0)
     || ((preDotState st =? 1) && (startDot st =? end_ st - 1)
         && (startDot st =? startPart st + 1))
  then ""
  else slice p (startDot st) (end_ st).

End Path.

(** ** node:fs *)

Module Fs.

(** The regular files of the machine, by path, with their contents. *)
Abbreviation t := (gmap Path.t string).

Inductive result : Type := Ok | Err (code : string).

(** [fs.unlink(p, cb)] *)
Definition unlink (p : Path.t) (fs : t) : result * t :=
  match fs !! p with
  | Some _ => (Ok, delete p fs)
  | None => (Err "ENOENT", fs)
  end.

(** [fs.rename(oldPath, newPath, cb)]: an existing target is replaced;
    a regular file cannot be renamed to a path that ends with a
    separator. *)
Definition rename (oldPath newPath : Path.t) (fs : t) : result * t :=
  match fs !! oldPath with
  | Some c =>
      if Path.trailing newPath then (Err "ENOTDIR", fs)
      else (Ok, <[newPath := c]> (delete oldPath fs))
  | None => (Err "ENOENT", fs)
  end.

(** A write stream on [p] that receives [c]. *)
Definition write (p : Path.t) (c : string) (fs : t) : t := <[p := c]> fs.

End Fs.

(** ** Records of the data query provider *)

Module Project.
Record t : Type := mk { id : string; created_at : Z }.
End Project.

Module Branch.
Record t : Type := mk { id : string; project_id : string; created_at : Z }.
End Branch.

Module ProjectState.
Record t : Type := mk { id : string; branch_id : string }.
End ProjectState.

(** [req.query] of the browse request. *)
Record Query : Type := mkQuery {
  projectId : JS.field; branchId : JS.field;
  task : JS.field; epic : JS.field; iteration : JS.field;
  llm_request : JS.field; agent : JS.field }.

(** The object handed to [searchProjectStates]. *)
Record Criteria : Type := mkCriteria {
  c_task : JS.field; c_epic : JS.field; c_iteration : JS.field;
  c_llm_request : JS.field; c_agent : JS.field; c_branchId : JS.field }.

(** What the router requires: the directory of the module, the open
    probe of [sqlite3] on the bytes of a file, and the four functions
    of [utils/projectQueries] ([None] is a rejected promise). *)
Record deps : Type := mkDeps {
  dirname : list string;
  sqlite_opens : string -> bool;
  getProjects : Path.t -> option (list Project.t);
  getBranchesByProjectId : Path.t -> string -> option (list Branch.t);
  getProjectStatesByBranchId :
    Path.t -> string -> option (list ProjectState.t);
  searchProjectStates : Path.t -> Criteria -> option (list ProjectState.t) }.

(** ** Responses *)

Inductive reply : Type :=
| Send (status : Z) (body : string)
| Redirect (location : string).

#[global] Instance reply_eq_dec : EqDecision reply.
Proof. solve_decision. Defined.

Definition is_client_error (r : reply) : bool :=
  match r with
  | Send status _ => (400 <=? status) && (status <? 500)
  | Redirect _ => false
  end.

Definition is_error (r : reply) : bool :=
  match r with
  | Send status _ => 400 <=? status
  | Redirect _ => false
  end.

Definition body_of (r : reply) : string :=
  match r with
  | Send _ b => b
  | Redirect _ => ""
  end.

(** The locals of [res.render('projects', ...)]. *)
Record View : Type := mkView {
  v_projects : list Project.t;
  v_branches : list Branch.t;
  v_projectStates : list ProjectState.t;
  v_selectedProjectId : JS.field;
  v_selectedBranchId : JS.field;
  v_task : JS.field; v_epic : JS.field; v_iteration : JS.field;
  v_llm_request : JS.field; v_agent : JS.field }.

Inductive page : Type :=
| Reply (r : reply)
| Render (template : string) (locals : View).

(** ** Process and file-system state *)

Record state : Type := mkState {
  files : Fs.t;
  dbPath : option Path.t   (* global.dbPath *) }.

(** ** Array.prototype.sort with a comparator

    The sort is stable: [x] moves in front of the first element it does
    not compare greater than. *)

Section Sort.
Context {A : Type} (cmp : A -> A -> Z).

Fixpoint sort_insert (x : A) (l : list A) : list A :=
  match l with
  | [] => [x]
  | y :: ys => if cmp x y <=? 0 then x :: y :: ys
               else y :: sort_insert x ys
  end.

Definition js_sort (l : list A) : list A := foldr sort_insert [] l.
End Sort.

(** The leftmost element with the greatest key, if any. *)
Fixpoint first_max {A : Type} (key : A -> Z) (l : list A) : option A :=
  match l with
  | [] => None
  | x :: rest =>
      match first_max key rest with
      | Some m => if key m <=? key x then Some x else Some m
      | None => Some x
      end
  end.

(** [(a, b) => new Date(b.created_at) - new Date(a.created_at)], with
    [created_at] holding the time value of the date. *)
Definition newest_first {A : Type} (created_at : A -> Z) (a b : A) : Z :=
  created_at b - created_at a.

(** ** The router *)

Module Router.

(** [path.join(__dirname, '..', 'uploads')] *)
Definition uploadsDir (D : deps) : Path.t :=
  Path.join (Path.mk (dirname D) false) "../uploads".

(** *** multer *)

(** The part named [databaseFile] of a multipart request. *)
Record incoming : Type := mkIncoming {
  originalname : string;
  bytes : string }.

Definition fieldname : string := "databaseFile".
Definition fileSize_limit : Z := 1000000000.

Definition lower_char (c : ascii) : ascii :=
  let n := nat_of_ascii c in
  if ((65 <=? n) && (n <=? 90))%nat then ascii_of_nat (n + 32) else c.

Fixpoint toLowerCase (s : string) : string :=
  match s with
  | EmptyString => EmptyString
  | String c rest => String (lower_char c) (toLowerCase rest)
  end.

Definition ends_with (suffix s : string) : bool :=
  let n := String.length s in
  let k := String.length suffix in
  ((k <=? n)%nat && String.eqb (substring (n - k) k s) suffix)%bool.

(** [/\.(sqlite|sqlite3|db)$/.test(s)] *)
Definition filetypes_test (s : string) : bool :=
  existsb (fun suffix => ends_with suffix s) [".sqlite"; ".sqlite3"; ".db"].

Definition fileFilter (file : incoming) : bool :=
  filetypes_test (toLowerCase (Path.extname (originalname file)))
  || String.eqb (Path.extname (originalname file)) "".

Definition fileFilter_message : string :=
  "Error: File upload only supports the following filetypes - .db, .sqlite, .sqlite3 or files without an extension".

(** [String(Date.now())] *)
Definition decimal (n : Z) : string :=
  DecimalString.NilZero.string_of_uint (N.to_uint (Z.to_N n)).

(** The [filename] callback of the disk storage. *)
Definition filename (file : incoming) (now : Z) : string :=
  fieldname ++ "-" ++ decimal now ++ Path.extname (originalname file).

Inductive multer_outcome : Type :=
| MulterError (message : string)
| NoFile
| File (filename : string).

(** [upload(req, res, cb)]: the filter runs before anything is
    written; a file over the limit is written in part and removed
    again; otherwise the bytes are stored in the uploads directory. *)
Definition upload (D : deps) (fs : Fs.t) (part : option incoming)
    (now : Z) : multer_outcome * Fs.t :=
  match part with
  | None => (NoFile, fs)
  | Some file =>
      if negb (fileFilter file)
      then (MulterError fileFilter_message, fs)
      else
        let name := filename file now in
        let dest := Path.join (uploadsDir D) name in
        if fileSize_limit <? Z.of_nat (String.length (bytes file))
        then (MulterError "File too large", delete dest fs)
        else (File name, Fs.write dest (bytes file) fs)
  end.

(** *** sqlite3 *)

(** [new sqlite3.Database(p, sqlite3.OPEN_READONLY, cb)]: whether the
    callback receives no error. *)
Definition open_readonly (D : deps) (fs : Fs.t) (p : Path.t) : bool :=
  match fs !! p with
  | Some c => sqlite_opens D c
  | None => false
  end.

(** *** Effects of a request, in the order the handler issues them *)

Inductive event : Type :=
| EvStore (p : Path.t)
| EvOpen (p : Path.t) (opened : bool)
| EvClose (p : Path.t)
| EvUnlink (p : Path.t)
| EvSetGlobal (p : Path.t)
| EvRespond (r : reply).

#[global] Instance event_eq_dec : EqDecision event.
Proof. solve_decision. Defined.

Record run : Type := mkRun {
  final : state;
  response : reply;
  trace : list event }.

(** [router.post('/select-database')] *)
Definition select_database (D : deps) (st : state)
    (selectedDatabase : JS.field) : state * reply :=
  if negb (JS.truthy selectedDatabase)
  then (st, Send 400 "No database selected")
  else
    let dbPath' := Path.join (uploadsDir D) (JS.str selectedDatabase) in
    (mkState (files st) (Some dbPath'), Redirect "/projects").

(** [router.post('/rename-database')] *)
Definition rename_database (D : deps) (st : state)
    (oldName newName : JS.field) : state * reply :=
  if negb (JS.truthy oldName) || negb (JS.truthy newName)
  then (st, Send 400 "Old name and new name must be provided")
  else
    let oldPath := Path.join (uploadsDir D) (JS.str oldName) in
    let newPath := Path.join (uploadsDir D) (JS.str newName) in
    match Fs.rename oldPath newPath (files st) with
    | (Fs.Err _, _) => (st, Send 500 "Error renaming database")
    | (Fs.Ok, fs') => (mkState fs' (dbPath st), Redirect "/")
    end.

(** [router.post('/upload')] *)
Definition upload_route (D : deps) (st : state) (part : option incoming)
    (now : Z) : run :=
  match upload D (files st) part now with
  | (MulterError message, fs') =>
      let r := Send 500 message in
      mkRun (mkState fs' (dbPath st)) r [EvRespond r]
  | (NoFile, fs') =>
      let r := Send 400 "Error: No file selected" in
      mkRun (mkState fs' (dbPath st)) r [EvRespond r]
  | (File name, fs') =>
      let dbPath' := Path.join (uploadsDir D) name in
      if open_readonly D fs' dbPath'
      then
        let r := Redirect "/projects" in
        mkRun (mkState fs' (Some dbPath')) r
              [EvStore dbPath'; EvOpen dbPath' true; EvClose dbPath';
               EvSetGlobal dbPath'; EvRespond r]
      else
        let r :=
          Send 400 "Error: Uploaded file is not a valid SQLite database" in
        mkRun (mkState (snd (Fs.unlink dbPath' fs')) (dbPath st)) r
              [EvStore dbPath'; EvOpen dbPath' false; EvUnlink dbPath';
               EvRespond r]
  end.

(** [router.post('/delete-database')] *)
Definition delete_database (D : deps) (st : state)
    (databaseName : JS.field) : state * reply :=
  if negb (JS.truthy databaseName)
  then (st, Send 400 "Database name is required for deletion.")
  else
    let dbPath' := Path.join (uploadsDir D) (JS.str databaseName) in
    if bool_decide (dbPath st = Some dbPath')
    then (st, Send 400
                "Deletion of the currently loaded database is not allowed.")
    else
      match Fs.unlink dbPath' (files st) with
      | (Fs.Err _, _) => (st, Send 500 "Error deleting database file.")
      | (Fs.Ok, fs') => (mkState fs' (dbPath st), Redirect "/")
      end.

(** The probe connections a trace leaves open: a successful open
    acquires one, [db.close()] releases it, a failed open acquires
    nothing. *)
Definition held_step (held : gset Path.t) (e : event) : gset Path.t :=
  match e with
  | EvOpen p true => held ∪ {[p]}
  | EvClose p => held ∖ {[p]}
  | _ => held
  end.

Definition held_after (tr : list event) : gset Path.t :=
  fold_left held_step tr ∅.

(** In a trace, every unlink of a path comes after a close of the
    probe on that path. *)
Definition closes_before_unlink (tr : list event) : Prop :=
  forall pre p post,
    tr = (pre ++ EvUnlink p :: post)%list -> In (EvClose p) pre.

(** *** router.get('/projects') *)

(** The body of the [try] block; [None] is a thrown error. *)
Definition resolve (D : deps) (dbPath' : Path.t) (q : Query)
    : option View :=
  projects0 ← getProjects D dbPath';
  let projects := js_sort (newest_first Project.created_at) projects0 in
  let render branches projectStates selectedProjectId selectedBranchId :=
    mkView projects branches projectStates selectedProjectId
           selectedBranchId (task q) (epic q) (iteration q)
           (llm_request q) (agent q) in
  (* !selectedProjectId && projects.length > 0, with projects[0] *)
  match (if negb (JS.truthy (projectId q)) then head projects else None)
  with
  | Some latest =>
      let selectedProjectId := Project.id latest in
      branches0 ← getBranchesByProjectId D dbPath' selectedProjectId;
      let branches := js_sort (newest_first Branch.created_at) branches0 in
      let selectedBranchId :=
        match head branches with
        | Some b => Some (Branch.id b)
        | None => branchId q
        end in
      Some (render branches [] (Some selectedProjectId) selectedBranchId)
  | None =>
      if JS.truthy (projectId q) then
        let selectedProjectId := JS.str (projectId q) in
        branches0 ← getBranchesByProjectId D dbPath' selectedProjectId;
        let branches :=
          js_sort (newest_first Branch.created_at) branches0 in
        let selectedBranchId :=
          match head branches with
          | Some b => Some (Branch.id b)
          | None => branchId q
          end in
        if JS.truthy selectedBranchId then
          if JS.any_truthy [task q; epic q; iteration q; agent q] then
            projectStates ←
              searchProjectStates D dbPath'
                (mkCriteria (task q) (epic q) (iteration q)
                            (llm_request q) (agent q) selectedBranchId);
            Some (render branches projectStates (projectId q)
                         selectedBranchId)
          else
            projectStates ←
              getProjectStatesByBranchId D dbPath'
                (JS.str selectedBranchId);
            Some (render branches projectStates (projectId q)
                         selectedBranchId)
        else Some (render branches [] (projectId q) selectedBranchId)
      else Some (render [] [] (projectId q) (branchId q))
  end.

Definition projects_route (D : deps) (active : option Path.t) (q : Query)
    : page :=
  match active with
  | None => Reply (Send 400 "No database file specified.")
  | Some dbPath' =>
      match resolve D dbPath' q with
      | Some locals => Render "projects" locals
      | None => Reply (Send 500 "Error fetching data")
      end
  end.

(** *** One request to a file route *)

Inductive request : Type :=
| SelectDatabase (selectedDatabase : JS.field)
| RenameDatabase (oldName newName : JS.field)
| Upload (part : option incoming) (now : Z)
| DeleteDatabase (databaseName : JS.field).

Definition handle (D : deps) (st : state) (r : request) : state * reply :=
  match r with
  | SelectDatabase name => select_database D st name
  | RenameDatabase oldName newName => rename_database D st oldName newName
  | Upload part now =>
      let u := upload_route D st part now in (final u, response u)
  | DeleteDatabase name => delete_database D st name
  end.

(** [name] is a name the routes resolve, and [p] is what they resolve
    it to: [path.join] is reached only with a truthy name. *)
Definition resolves (D : deps) (name : JS.field) (p : Path.t) : Prop :=
  JS.truthy name = true /\ p = Path.join (uploadsDir D) (JS.str name).

(** Every query of the provider on [dbPath'] resolves. *)
Definition provider_answers (D : deps) (dbPath' : Path.t) : Prop :=
  is_Some (getProjects D dbPath')
  /\ (forall pid, is_Some (getBranchesByProjectId D dbPath' pid))
  /\ (forall bid, is_Some (getProjectStatesByBranchId D dbPath' bid))
  /\ (forall c, is_Some (searchProjectStates D dbPath' c)).

Definition set_branchId (q : Query) (b : JS.field) : Query :=
  mkQuery (projectId q) b (task q) (epic q) (iteration q)
          (llm_request q) (agent q).

(** Where an upload of [file] at time [now] is stored. *)
Definition destination (D : deps) (file : incoming) (now : Z) : Path.t :=
  Path.join (uploadsDir D) (filename file now).

Definition size (file : incoming) : Z :=
  Z.of_nat (String.length (bytes file)).


(** The handle in [global.dbPath], when set, names a stored file. *)
Definition active_exists (st : state) : Prop :=
  forall p, dbPath st = Some p -> is_Some (files st !! p).

End Router.

(** ** A deployment used in the examples *)

Module Demo.

Definition P1 : Project.t := Project.mk "P1" 2000.
Definition P2 : Project.t := Project.mk "P2" 1000.
Definition B1 : Branch.t := Branch.mk "B1" "P1" 1500.
Definition S1 : ProjectState.t := ProjectState.mk "S1" "B1".
Definition S2 : ProjectState.t := ProjectState.mk "S2" "B1".

Definition D : deps := {|
  dirname := ["srv"; "lab"; "routes"];
  sqlite_opens := fun c => String.prefix "SQLite format 3" c;
  getProjects := fun _ => Some [P2; P1];
  getBranchesByProjectId := fun _ pid =>
    Some (if String.eqb pid "P1" then [B1] else []);
  getProjectStatesByBranchId := fun _ bid =>
    Some (if String.eqb bid "B1" then [S1; S2] else []);
  searchProjectStates := fun _ c =>
    Some (if bool_decide (c_branchId c = Some "B1") then [S1] else [])
|}.

Definition uploads (name : string) : Path.t :=
  Path.mk ["srv"; "lab"; "uploads"; name] false.

Definition no_query : Query :=
  mkQuery None None None None None None None.

Definition empty_state : state := mkState ∅ None.

Definition main_db : Path.t := uploads "main.db".

(** [main.db] is stored and active; [old.db] is stored. *)
Definition busy_state : state :=
  mkState (<[main_db := "SQLite format 3 main"]>
             (<[uploads "old.db" := "SQLite format 3 old"]> ∅))
          (Some main_db).

Definition garbage : Router.incoming :=
  Router.mkIncoming "dump.db" "not a database".

Definition report : Router.incoming :=
  Router.mkIncoming "report.txt" "SQLite format 3 report".

Definition good : Router.incoming :=
  Router.mkIncoming "Agent.SQLite" "SQLite format 3 agent".

(** The active database carries a name that an upload at time 5 is
    stored under. *)
Definition clash_state : state :=
  mkState (<[uploads "databaseFile-5.db" := "SQLite format 3 five"]> ∅)
          (Some (uploads "databaseFile-5.db")).

End Demo.

(** ** The listing route *)

Module Listing.

(** The name of the entry of [dir] that the path [segs] lies in or is. *)
Fixpoint child_of (dir segs : list string) : option string :=
  match dir, segs with
  | [], name :: _ => Some name
  | d :: dir', s :: segs' =>
      if String.eqb d s then child_of dir' segs' else None
  | _, [] => None
  end.

(** The entries [fs.readdir(dir, cb)] yields: the files of [dir] and its
    subdirectories, which are the directories some stored file lies in.
    Their order is that of the platform and is not modelled. *)
Definition readdir (dir : Path.t) (fs : Fs.t) : list string :=
  remove_dups
    (omap (fun p => child_of (Path.segs dir) (Path.segs p))
          (elements (dom fs))).

Inductive page : Type :=
| Reply (r : reply)
| Render (template : string) (databases : list string).

(** The predicate of [files.filter(...)]. *)
Definition listed (file : string) : bool :=
  Router.filetypes_test (Router.toLowerCase (Path.extname file))
  || String.eqb (Path.extname file) "".

(** The callback of [fs.readdir] in [router.get('/')]; [None] is an
    error of [readdir]. *)
Definition index_callback (entries : option (list string)) : page :=
  match entries with
  | None => Reply (Send 500 "Error reading uploads directory")
  | Some files => Render "index" (filter (fun file => listed file = true) files)
  end.

(** [router.get('/')] on a machine where the uploads directory, made
    when the module is loaded, can be read. *)
Definition index_route (D : deps) (st : state) : page :=
  index_callback (Some (readdir (Router.uploadsDir D) (files st))).

(** The databases the root page shows. *)
Definition databases (D : deps) (st : state) : list string :=
  match index_route D st with
  | Render _ names => names
  | Reply _ => []
  end.

(** A character that is neither a separator nor a dot. *)
Definition clean_char (c : ascii) : Prop := c <> Path.slash /\ c <> Path.dot.

Definition clean (s : string) : Prop :=
  Forall clean_char (list_ascii_of_string s).

Definition no_slash (s : string) : Prop :=
  Forall (fun c => c <> Path.slash) (list_ascii_of_string s).

Definition no_dot (s : string) : Prop :=
  Forall (fun c => c <> Path.dot) (list_ascii_of_string s).

End Listing.

(** ** The detail routes *)

Module Details.

(** What a detail query resolves to; the router hands it to the
    template as it is. *)
Definition rows : Type := list string.

(** The functions of [utils/detailQueries] ([None] is a rejected
    promise). *)
Record queries : Type := mkQueries {
  getLLMRequestDetailsByProjectStateId : Path.t -> string -> option rows;
  getEpicDetailsByProjectStateId : Path.t -> string -> option rows;
  getTaskDetailsByProjectStateId : Path.t -> string -> option rows;
  getStepDetailsByProjectStateId : Path.t -> string -> option rows;
  getFileDetailsByProjectStateId : Path.t -> string -> option rows;
  getUserInputDetailsByProjectStateId : Path.t -> string -> option rows;
  getIterationDetailsByProjectStateId : Path.t -> string -> option rows }.

Inductive page : Type :=
| Reply (r : reply)
| Render (template : string) (details : rows).

(** [details = await query; res.render(template, { details })] inside
    a [try] whose [catch] answers 500 with [message]. *)
Definition render_or (message : string) (template : string)
    (result : option rows) : page :=
  match result with
  | Some details => Render template details
  | None => Reply (Send 500 message)
  end.

(** [router.get('/details/llm-requests/:projectStateId')] *)
Definition llm_requests_route (Q : queries) (active : option Path.t)
    (projectStateId : string) : page :=
  match active with
  | None => Reply (Send 400 "No database file specified.")
  | Some dbPath' =>
      render_or "Error fetching LLM request details" "details/llmRequests"
        (getLLMRequestDetailsByProjectStateId Q dbPath' projectStateId)
  end.

(** [router.get('/details/:column/:projectStateId')] *)
Definition column_route (Q : queries) (active : option Path.t)
    (column projectStateId : string) : page :=
  match active with
  | None => Reply (Send 400 "No database file specified.")
  | Some dbPath' =>
      let render := render_or "Error fetching column details" in
      if String.eqb column "epic" then
        render "details/epicDetails"
          (getEpicDetailsByProjectStateId Q dbPath' projectStateId)
      else if String.eqb column "task" then
        render "details/taskDetails"
          (getTaskDetailsByProjectStateId Q dbPath' projectStateId)
      else if String.eqb column "step" then
        render "details/stepDetails"
          (getStepDetailsByProjectStateId Q dbPath' projectStateId)
      else if String.eqb column "files" then
        render "details/fileDetails"
          (getFileDetailsByProjectStateId Q dbPath' projectStateId)
      else if String.eqb column "userInputs" then
        render "details/userInputDetails"
          (getUserInputDetailsByProjectStateId Q dbPath' projectStateId)
      else if String.eqb column "llmRequests" then
        render "details/llmRequests"
          (getLLMRequestDetailsByProjectStateId Q dbPath' projectStateId)
      else if String.eqb column "iteration" then
        render "details/iterationDetails"
          (getIterationDetailsByProjectStateId Q dbPath' projectStateId)
      else Reply (Send 400 "Invalid detail request")
  end.

(** The tokens the [switch] has a case for. *)
Definition columns : list string :=
  ["epic"; "task"; "step"; "files"; "userInputs"; "llmRequests"; "iteration"].

End Details.

(** ** More sample data *)

Module Samples.

Definition Q : Details.queries := {|
  Details.getLLMRequestDetailsByProjectStateId := fun _ id =>
    if String.eqb id "S1" then Some ["prompt"; "reply"] else None;
  Details.getEpicDetailsByProjectStateId := fun _ _ => Some ["epic"];
  Details.getTaskDetailsByProjectStateId := fun _ _ => Some ["task"];
  Details.getStepDetailsByProjectStateId := fun _ _ => Some ["step"];
  Details.getFileDetailsByProjectStateId := fun _ _ => Some ["file"];
  Details.getUserInputDetailsByProjectStateId := fun _ _ => Some ["input"];
  Details.getIterationDetailsByProjectStateId := fun _ _ => None
|}.

(** A query with a projectId and nothing but llm_request. *)
Definition only_llm_request : Query :=
  mkQuery (Some "P1") None None None None (Some "42") None.

End Samples.

(** ** The scan of [path.extname], by pieces *)

Module Scan.

(** The characters of [l] with their indices, [l] starting at [off]. *)
Definition indexed_from (off : nat) (l : list ascii) : list (Z * ascii) :=
  combine (map Z.of_nat (seq off (length l))) l.

(** The loop of [extname] over [l], from its last character down. *)
Definition scan (st : Path.ext_state) (off : nat) (l : list ascii)
    : Path.ext_state :=
  fold_left Path.ext_step (rev (indexed_from off l)) st.

(** What [extname] returns from the state the loop ends in. *)
Definition finish (p : string) (st : Path.ext_state) : string :=
  if (Path.startDot st =? -1) || (Path.end_ st =? -1)
     || (Path.preDotState st =? 0)
     || ((Path.preDotState st =? 1)
         && (Path.startDot st =? Path.end_ st - 1)
         && (Path.startDot st =? Path.startPart st + 1))
  then ""
  else Path.slice p (Path.startDot st) (Path.end_ st).

(** What the loop knows once the characters of [p] from index [n] on
    have been seen. *)
Definition inv (p : list ascii) (n : nat) (st : Path.ext_state) : Prop :=
  (Path.matchedSlash st = true -> Path.end_ st = -1)
  /\ (Path.startDot st = -1 -> Path.stopped st = false ->
      Path.end_ st <> -1 ->
      exists w v,
        skipn n p = (w ++ v)%list
        /\ Z.of_nat (n + length w) = Path.end_ st
        /\ Forall Listing.clean_char w)
  /\ (Path.startDot st <> -1 ->
      exists u w v,
        p = (u ++ Path.dot :: w ++ v)%list
        /\ Z.of_nat (length u) = Path.startDot st
        /\ Z.of_nat (length u + 1 + length w) = Path.end_ st
        /\ Forall Listing.clean_char w).

End Scan.

(** * Facts *)

(** ** JavaScript truthiness *)

Lemma truthy_Some s : JS.truthy (Some s) = true <-> s <> "".
Proof.
  unfold JS.truthy. rewrite negb_true_iff.
  destruct (String.eqb_spec s ""); split; congruence.
Qed.

(** ** node:path on concrete names *)

Example extname_txt : Path.extname "report.txt" = ".txt".
Proof. vm_compute. reflexivity. Qed.

Example extname_none : Path.extname "dump" = "".
Proof. vm_compute. reflexivity. Qed.

Example extname_hidden : Path.extname ".index" = "".
Proof. vm_compute. reflexivity. Qed.

Example extname_dotdot : Path.extname ".." = "".
Proof. vm_compute. reflexivity. Qed.

Example extname_enddot : Path.extname "index." = ".".
Proof. vm_compute. reflexivity. Qed.

Example extname_dir : Path.extname "a.d/x.sqlite3/" = ".sqlite3".
Proof. vm_compute. reflexivity. Qed.

Example split_ex : Path.split "../a//b/" = [".."; "a"; ""; "b"; ""].
Proof. vm_compute. reflexivity. Qed.

Example join_ex :
  Path.join (Path.mk ["app"; "uploads"] false) "./x/../../y.db/"
  = Path.mk ["app"; "y.db"] true.
Proof. vm_compute. reflexivity. Qed.

Example uploadsDir_demo :
  Router.uploadsDir Demo.D = Path.mk ["srv"; "lab"; "uploads"] false.
Proof. vm_compute. reflexivity. Qed.

(** ** Normalization *)

Section Normalization.

Lemma norm_step_plain acc seg :
  Path.plain seg -> Path.norm_step acc seg = seg :: acc.
Proof.
  intros (H1 & H2 & H3). unfold Path.norm_step.
  destruct (String.eqb_spec seg ""); [contradiction|].
  destruct (String.eqb_spec seg "."); [contradiction|].
  destruct (String.eqb_spec seg ".."); [contradiction|].
  reflexivity.
Qed.

Lemma norm_step_dotdot acc : Path.norm_step acc ".." = tl acc.
Proof. reflexivity. Qed.

Lemma norm_step_keeps_plain acc seg :
  Forall Path.plain acc -> Forall Path.plain (Path.norm_step acc seg).
Proof.
  intros Hacc. unfold Path.norm_step.
  destruct (String.eqb_spec seg ""); [assumption|].
  destruct (String.eqb_spec seg "."); [assumption|].
  destruct (String.eqb_spec seg "..").
  - destruct acc; [constructor|]. now inversion Hacc.
  - constructor; [|assumption]. now repeat split.
Qed.

Lemma fold_norm_plain l : forall acc,
  Forall Path.plain acc -> Forall Path.plain (fold_left Path.norm_step l acc).
Proof.
  induction l as [|seg l IH]; intros acc Hacc; simpl; [assumption|].
  apply IH. now apply norm_step_keeps_plain.
Qed.

(** Plain segments are pushed as they are. *)
Lemma fold_norm_push l : forall acc,
  Forall Path.plain l -> fold_left Path.norm_step l acc = (rev l ++ acc)%list.
Proof.
  induction l as [|seg l IH]; intros acc Hl; simpl; [reflexivity|].
  inversion Hl as [|? ? Hseg Hrest]; subst.
  rewrite (norm_step_plain _ _ Hseg), (IH _ Hrest).
  now rewrite <- app_assoc.
Qed.

Lemma norm_segs_plain l : Forall Path.plain (Path.norm_segs l).
Proof.
  unfold Path.norm_segs. apply Forall_rev.
  apply fold_norm_plain. constructor.
Qed.

(** [path.normalize] is idempotent. *)
Lemma norm_segs_idem l : Path.norm_segs (Path.norm_segs l) = Path.norm_segs l.
Proof.
  unfold Path.norm_segs at 1.
  rewrite fold_norm_push by apply norm_segs_plain.
  now rewrite app_nil_r, !rev_involutive.
Qed.

(** Joining onto a normalized base continues from its segments. *)
Lemma join_segs base name :
  Forall Path.plain (Path.segs base) ->
  Path.segs (Path.join base name)
  = rev (fold_left Path.norm_step (Path.split name) (rev (Path.segs base))).
Proof.
  intros Hb. unfold Path.join, Path.norm_segs. simpl.
  rewrite fold_left_app.
  rewrite (fold_norm_push (Path.segs base)) by assumption.
  now rewrite app_nil_r.
Qed.

Lemma uploadsDir_segs D :
  exists parent, Forall Path.plain parent
    /\ Path.segs (Router.uploadsDir D) = (parent ++ ["uploads"])%list.
Proof.
  exists (rev (tl (fold_left Path.norm_step (dirname D) []))).
  split.
  - apply Forall_rev.
    pose proof (fold_norm_plain (dirname D) [] (List.Forall_nil _)) as H.
    destruct (fold_left Path.norm_step (dirname D) []); simpl;
      [constructor | now inversion H].
  - unfold Router.uploadsDir, Path.join, Path.norm_segs. simpl.
    now rewrite fold_left_app.
Qed.

End Normalization.

(** ** The comparator sort *)

Section SortFacts.
Context {A : Type} (key : A -> Z).

Lemma sort_insert_perm (cmp : A -> A -> Z) x l :
  Permutation (sort_insert cmp x l) (x :: l).
Proof.
  induction l as [|y ys IH]; simpl; [reflexivity|].
  destruct (cmp x y <=? 0); [reflexivity|].
  rewrite IH. apply perm_swap.
Qed.

Lemma js_sort_perm (cmp : A -> A -> Z) l : Permutation (js_sort cmp l) l.
Proof.
  induction l as [|x l IH]; simpl; [reflexivity|].
  rewrite sort_insert_perm. now constructor.
Qed.

Lemma head_sort_insert x l :
  head (sort_insert (newest_first key) x l)
  = match head l with
    | Some y => if key y <=? key x then Some x else Some y
    | None => Some x
    end.
Proof.
  destruct l as [|y ys]; simpl; [reflexivity|].
  unfold newest_first.
  destruct (Z.leb_spec (key y - key x) 0), (Z.leb_spec (key y) (key x));
    simpl; try reflexivity; lia.
Qed.

(** Newest first puts the leftmost newest element in front. *)
Lemma head_js_sort l : head (js_sort (newest_first key) l) = first_max key l.
Proof.
  induction l as [|x l IH]; simpl; [reflexivity|].
  now rewrite head_sort_insert, IH.
Qed.

Lemma first_max_greatest l m :
  first_max key l = Some m -> In m l /\ forall x, In x l -> key x <= key m.
Proof.
  revert m. induction l as [|y l IH]; intros m; simpl; [discriminate|].
  destruct (first_max key l) as [m'|] eqn:E.
  - destruct (IH m' eq_refl) as [Hin Hmax].
    destruct (Z.leb_spec (key m') (key y)); intros [= <-].
    + split; [now left|]. intros x [<-|Hx]; [lia|].
      specialize (Hmax x Hx). lia.
    + split; [now right|]. intros x [<-|Hx]; [lia|]. now apply Hmax.
  - intros [= <-]. split; [now left|].
    intros x [<-|Hx]; [lia|].
    destruct l; [contradiction|]. simpl in E.
    destruct (first_max key l); [destruct (_ <=? _)|]; discriminate.
Qed.

Lemma first_max_is_Some l : l <> [] -> is_Some (first_max key l).
Proof.
  destruct l as [|x l]; [congruence|]. intros _. simpl.
  destruct (first_max key l); [destruct (_ <=? _)|]; eauto.
Qed.

(** The sorted list is in descending order of the key. *)
Lemma sort_insert_sorted x l :
  Sorted (fun a b => key b <= key a) l ->
  Sorted (fun a b => key b <= key a) (sort_insert (newest_first key) x l).
Proof.
  induction 1 as [|y ys Hs IH Hhd]; simpl.
  - repeat constructor.
  - unfold newest_first at 1.
    destruct (Z.leb_spec (key y - key x) 0).
    + constructor; [now constructor|]. constructor. lia.
    + constructor; [assumption|].
      destruct ys as [|z zs]; simpl.
      * constructor. lia.
      * unfold newest_first.
        destruct (Z.leb_spec (key z - key x) 0); constructor; [lia|].
        now inversion Hhd.
Qed.

Lemma js_sort_sorted l :
  Sorted (fun a b => key b <= key a) (js_sort (newest_first key) l).
Proof.
  induction l as [|x l IH]; simpl; [constructor|].
  now apply sort_insert_sorted.
Qed.

End SortFacts.

(** ** The browse route *)

(** C8: with no projectId supplied and at least one project present,
    the browse route renders with selectedProjectId equal to the id of
    a project whose created_at is greatest among all projects (the
    leftmost such project in the order of the provider). *)
Theorem latest_project_preselected (D : deps) (db : Path.t) (q : Query)
    (ps : list Project.t) :
  getProjects D db = Some ps ->
  ps <> [] ->
  JS.truthy (projectId q) = false ->
  (forall pid, is_Some (getBranchesByProjectId D db pid)) ->
  exists p v,
    In p ps
    /\ (forall p', In p' ps -> Project.created_at p' <= Project.created_at p)
    /\ first_max Project.created_at ps = Some p
    /\ Router.projects_route D (Some db) q = Render "projects" v
    /\ v_selectedProjectId v = Some (Project.id p).
Proof.
  intros Hps Hne Hq Hbr.
  destruct (first_max_is_Some Project.created_at ps Hne) as [p Hp].
  destruct (first_max_greatest _ _ _ Hp) as [Hin Hmax].
  destruct (Hbr (Project.id p)) as [bs Hbs].
  unfold Router.projects_route, Router.resolve.
  rewrite Hps. simpl. rewrite Hq. simpl.
  rewrite head_js_sort, Hp. rewrite Hbs. simpl.
  eexists p, _. repeat split; try eassumption; reflexivity.
Qed.

Lemma latest_project_preselected_witness :
  getProjects Demo.D Demo.main_db = Some [Demo.P2; Demo.P1]
  /\ exists p v,
    In p [Demo.P2; Demo.P1]
    /\ (forall p', In p' [Demo.P2; Demo.P1] ->
                   Project.created_at p' <= Project.created_at p)
    /\ first_max Project.created_at [Demo.P2; Demo.P1] = Some p
    /\ Router.projects_route Demo.D (Some Demo.main_db) Demo.no_query
       = Render "projects" v
    /\ v_selectedProjectId v = Some (Project.id p).
Proof.
  split; [reflexivity|].
  apply (latest_project_preselected Demo.D Demo.main_db Demo.no_query
           [Demo.P2; Demo.P1]).
  - reflexivity.
  - discriminate.
  - reflexivity.
  - intros pid. simpl. eauto.
Defined.

Lemma set_branchId_same q : Router.set_branchId q (branchId q) = q.
Proof. now destruct q. Qed.

(** With a projectId in the query and a branch selected, the states
    come from the filtered search exactly when one of task, epic,
    iteration, agent is truthy, with the six criteria handed over as
    they are; otherwise from the unfiltered query of the branch. *)
Lemma explicit_project_dispatch (D : deps) (db : Path.t) (q : Query)
    (ps : list Project.t) (bs : list Branch.t) :
  JS.truthy (projectId q) = true ->
  getProjects D db = Some ps ->
  getBranchesByProjectId D db (JS.str (projectId q)) = Some bs ->
  let selected :=
    match first_max Branch.created_at bs with
    | Some b => Some (Branch.id b)
    | None => branchId q
    end in
  JS.truthy selected = true ->
  Router.projects_route D (Some db) q
  = match
      (if JS.any_truthy [task q; epic q; iteration q; agent q]
       then searchProjectStates D db
              (mkCriteria (task q) (epic q) (iteration q) (llm_request q)
                          (agent q) selected)
       else getProjectStatesByBranchId D db (JS.str selected))
    with
    | Some states =>
        Render "projects"
          (mkView (js_sort (newest_first Project.created_at) ps)
                  (js_sort (newest_first Branch.created_at) bs)
                  states (projectId q) selected
                  (task q) (epic q) (iteration q) (llm_request q) (agent q))
    | None => Reply (Send 500 "Error fetching data")
    end.
Proof.
  intros Hpid Hps Hbs selected Hsel.
  unfold Router.projects_route, Router.resolve.
  rewrite Hps. simpl. rewrite Hpid. simpl. rewrite Hbs. simpl.
  rewrite head_js_sort. fold selected. rewrite Hsel.
  destruct (_ || _); simpl.
  - now destruct (searchProjectStates D db _).
  - now destruct (getProjectStatesByBranchId D db _).
Qed.

(** C9: when the query carries a projectId whose project has at least
    one branch, the rendered selectedBranchId is the id of a branch of
    that project with the greatest created_at, and replacing the
    branchId of the query by any other value gives the same page. *)
Theorem explicit_project_latest_branch (D : deps) (db : Path.t) (q : Query)
    (bs : list Branch.t) :
  Router.provider_answers D db ->
  JS.truthy (projectId q) = true ->
  getBranchesByProjectId D db (JS.str (projectId q)) = Some bs ->
  bs <> [] ->
  exists b v,
    In b bs
    /\ (forall b', In b' bs -> Branch.created_at b' <= Branch.created_at b)
    /\ first_max Branch.created_at bs = Some b
    /\ Router.projects_route D (Some db) q = Render "projects" v
    /\ v_selectedBranchId v = Some (Branch.id b)
    /\ forall other,
         Router.projects_route D (Some db) (Router.set_branchId q other)
         = Render "projects" v.
Proof.
  intros (Hps & _ & Hst & Hse) Hpid Hbs Hne.
  destruct Hps as [ps Hps].
  destruct (first_max_is_Some Branch.created_at bs Hne) as [b Hb].
  destruct (first_max_greatest _ _ _ Hb) as [Hin Hmax].
  assert (Hany : forall other, exists v,
    Router.projects_route D (Some db) (Router.set_branchId q other)
      = Render "projects" v
    /\ v_selectedBranchId v = Some (Branch.id b)
    /\ Router.projects_route D (Some db) q = Render "projects" v).
  { intros other.
    unfold Router.projects_route, Router.resolve.
    rewrite Hps. simpl. rewrite Hpid. simpl. rewrite Hbs. simpl.
    rewrite head_js_sort, Hb.
    destruct (JS.truthy (Some (Branch.id b))); [|eauto].
    destruct (_ || _); simpl.
    - destruct (Hse (mkCriteria (task q) (epic q) (iteration q)
                       (llm_request q) (agent q) (Some (Branch.id b))))
        as [states ->].
      simpl. eauto.
    - destruct (Hst (Branch.id b)) as [states ->]. simpl. eauto. }
  destruct (Hany None) as (v & _ & Hsel & Hq).
  exists b, v. repeat split; try assumption.
  intros other. destruct (Hany other) as (v' & Hv' & _ & Hq').
  congruence.
Qed.

Lemma explicit_project_latest_branch_witness :
  exists b v,
    In b [Demo.B1]
    /\ (forall b', In b' [Demo.B1] ->
                   Branch.created_at b' <= Branch.created_at b)
    /\ first_max Branch.created_at [Demo.B1] = Some b
    /\ Router.projects_route Demo.D (Some Demo.main_db)
         (mkQuery (Some "P1") (Some "B0") None None None None None)
       = Render "projects" v
    /\ v_selectedBranchId v = Some (Branch.id b)
    /\ forall other,
         Router.projects_route Demo.D (Some Demo.main_db)
           (Router.set_branchId
              (mkQuery (Some "P1") (Some "B0") None None None None None)
              other)
         = Render "projects" v.
Proof.
  apply (explicit_project_latest_branch Demo.D Demo.main_db
           (mkQuery (Some "P1") (Some "B0") None None None None None)
           [Demo.B1]).
  - repeat split; simpl; eauto.
  - reflexivity.
  - reflexivity.
  - discriminate.
Defined.

(** Without branches for the project, the branchId of the query stays
    selected and its states are loaded. *)
Example branchId_used_without_branches :
  Router.projects_route Demo.D (Some Demo.main_db)
    (mkQuery (Some "P2") (Some "B1") None None None None None)
  = Render "projects"
      (mkView [Demo.P1; Demo.P2] [] [Demo.S1; Demo.S2] (Some "P2")
              (Some "B1") None None None None None).
Proof. reflexivity. Qed.

(** C4: in the scenario of two projects P1 (newer) and P2, P1 with the
    branch B1, the browse route without query parameters selects P1 and
    B1 and renders an empty list of project states, although the
    provider holds the states S1 and S2 for B1. *)
Theorem browse_without_parameters_scenario :
  Router.projects_route Demo.D (Some Demo.main_db) Demo.no_query
  = Render "projects"
      (mkView [Demo.P1; Demo.P2] [Demo.B1] [] (Some "P1") (Some "B1")
              None None None None None)
  /\ getProjectStatesByBranchId Demo.D Demo.main_db "B1"
     = Some [Demo.S1; Demo.S2].
Proof. split; reflexivity. Qed.

(** C7: when no projectId is supplied and a project exists, the route
    settles on the newest branch of the newest project and renders
    without asking the provider for states: the list of project states
    is empty whatever the filters are. *)
Theorem preselected_branch_states_not_loaded (D : deps) (db : Path.t)
    (q : Query) (ps : list Project.t) (p : Project.t) (bs : list Branch.t)
    (b : Branch.t) :
  JS.truthy (projectId q) = false ->
  getProjects D db = Some ps ->
  first_max Project.created_at ps = Some p ->
  getBranchesByProjectId D db (Project.id p) = Some bs ->
  first_max Branch.created_at bs = Some b ->
  exists v,
    Router.projects_route D (Some db) q = Render "projects" v
    /\ v_selectedBranchId v = Some (Branch.id b)
    /\ v_projectStates v = [].
Proof.
  intros Hq Hps Hp Hbs Hb.
  unfold Router.projects_route, Router.resolve.
  rewrite Hps. simpl. rewrite Hq. simpl.
  rewrite head_js_sort, Hp, Hbs. simpl.
  rewrite head_js_sort, Hb. eauto.
Qed.

Lemma preselected_branch_states_not_loaded_witness :
  getProjectStatesByBranchId Demo.D Demo.main_db (Branch.id Demo.B1)
  = Some [Demo.S1; Demo.S2]
  /\ exists v,
    Router.projects_route Demo.D (Some Demo.main_db) Demo.no_query
    = Render "projects" v
    /\ v_selectedBranchId v = Some (Branch.id Demo.B1)
    /\ v_projectStates v = [].
Proof.
  split; [reflexivity|].
  apply (preselected_branch_states_not_loaded Demo.D Demo.main_db
           Demo.no_query [Demo.P2; Demo.P1] Demo.P1 [Demo.B1] Demo.B1);
    reflexivity.
Defined.

(** ** The upload route *)

Section UploadFacts.
Variable D : deps.

(** What multer hands to the handler, by the kind of request. *)
Lemma upload_rejected fs file now :
  Router.fileFilter file = false ->
  Router.upload D fs (Some file) now
  = (Router.MulterError Router.fileFilter_message, fs).
Proof. intros H. unfold Router.upload. now rewrite H. Qed.

Lemma upload_too_large fs file now :
  Router.fileFilter file = true ->
  Router.fileSize_limit < Router.size file ->
  Router.upload D fs (Some file) now
  = (Router.MulterError "File too large",
     delete (Router.destination D file now) fs).
Proof.
  intros H Hsize. unfold Router.upload. rewrite H. simpl.
  unfold Router.size in Hsize.
  now destruct (Z.ltb_spec Router.fileSize_limit
                  (Z.of_nat (String.length (Router.bytes file)))); [|lia].
Qed.

Lemma upload_stored fs file now :
  Router.fileFilter file = true ->
  Router.size file <= Router.fileSize_limit ->
  Router.upload D fs (Some file) now
  = (Router.File (Router.filename file now),
     <[Router.destination D file now := Router.bytes file]> fs).
Proof.
  intros H Hsize. unfold Router.upload. rewrite H. simpl.
  unfold Router.size in Hsize.
  now destruct (Z.ltb_spec Router.fileSize_limit
                  (Z.of_nat (String.length (Router.bytes file)))); [lia|].
Qed.

(** The probe reads what was just stored. *)
Lemma probe_of_stored (fs : Fs.t) p c :
  Router.open_readonly D (<[p := c]> fs) p = sqlite_opens D c.
Proof. unfold Router.open_readonly. now rewrite lookup_insert_eq. Qed.

Lemma unlink_of_stored (fs : Fs.t) p c :
  Fs.unlink p (<[p := c]> fs) = (Fs.Ok, delete p fs).
Proof.
  unfold Fs.unlink. rewrite lookup_insert_eq. now rewrite delete_insert_eq.
Qed.

Lemma upload_route_invalid st file now :
  Router.fileFilter file = true ->
  Router.size file <= Router.fileSize_limit ->
  sqlite_opens D (Router.bytes file) = false ->
  let dest := Router.destination D file now in
  let r := Send 400 "Error: Uploaded file is not a valid SQLite database" in
  Router.upload_route D st (Some file) now
  = Router.mkRun (mkState (delete dest (files st)) (dbPath st)) r
      [Router.EvStore dest; Router.EvOpen dest false;
       Router.EvUnlink dest; Router.EvRespond r].
Proof.
  intros Hf Hsize Hopen. unfold Router.upload_route.
  rewrite (upload_stored _ _ _ Hf Hsize).
  fold (Router.destination D file now).
  now rewrite probe_of_stored, Hopen, unlink_of_stored.
Qed.

Lemma upload_route_valid st file now :
  Router.fileFilter file = true ->
  Router.size file <= Router.fileSize_limit ->
  sqlite_opens D (Router.bytes file) = true ->
  let dest := Router.destination D file now in
  Router.upload_route D st (Some file) now
  = Router.mkRun
      (mkState (<[dest := Router.bytes file]> (files st)) (Some dest))
      (Redirect "/projects")
      [Router.EvStore dest; Router.EvOpen dest true; Router.EvClose dest;
       Router.EvSetGlobal dest; Router.EvRespond (Redirect "/projects")].
Proof.
  intros Hf Hsize Hopen. unfold Router.upload_route.
  rewrite (upload_stored _ _ _ Hf Hsize).
  fold (Router.destination D file now).
  now rewrite probe_of_stored, Hopen.
Qed.

Lemma upload_route_multer_error st file now :
  Router.fileFilter file = false
  \/ Router.fileSize_limit < Router.size file ->
  exists message fs',
    Router.upload_route D st (Some file) now
    = Router.mkRun (mkState fs' (dbPath st)) (Send 500 message)
        [Router.EvRespond (Send 500 message)]
    /\ message
       = (if Router.fileFilter file then "File too large"
          else Router.fileFilter_message).
Proof.
  intros H. unfold Router.upload_route.
  destruct (Router.fileFilter file) eqn:Hf.
  - destruct H as [H|H]; [discriminate|].
    rewrite (upload_too_large _ _ _ Hf H). eauto.
  - rewrite (upload_rejected _ _ _ Hf). eauto.
Qed.

End UploadFacts.

(** C1: an upload that passes the filter and the size limit but fails
    the read-only open probe is stored, probed and unlinked, in that
    order; afterwards the stored path names no file, every other file
    is as before, the active handle is as before, and the reply is the
    400 "not a valid SQLite database" error. *)
Theorem invalid_upload_is_removed (D : deps) (st : state)
    (file : Router.incoming) (now : Z) :
  Router.fileFilter file = true ->
  Router.size file <= Router.fileSize_limit ->
  sqlite_opens D (Router.bytes file) = false ->
  let dest := Router.destination D file now in
  let r := Router.upload_route D st (Some file) now in
  files (Router.final r) !! dest = None
  /\ (forall p, p <> dest -> files (Router.final r) !! p = files st !! p)
  /\ dbPath (Router.final r) = dbPath st
  /\ Router.response r
     = Send 400 "Error: Uploaded file is not a valid SQLite database"
  /\ is_client_error (Router.response r) = true
  /\ Router.trace r
     = [Router.EvStore dest; Router.EvOpen dest false; Router.EvUnlink dest;
        Router.EvRespond (Router.response r)].
Proof.
  intros Hf Hsize Hopen dest r. subst r.
  rewrite (upload_route_invalid D st file now Hf Hsize Hopen). simpl.
  fold dest. repeat split.
  - apply lookup_delete_eq.
  - intros p Hp. now apply lookup_delete_ne.
Qed.

Lemma invalid_upload_is_removed_witness :
  let dest := Router.destination Demo.D Demo.garbage 1700000000123 in
  let r := Router.upload_route Demo.D Demo.busy_state (Some Demo.garbage)
             1700000000123 in
  dest = Demo.uploads "databaseFile-1700000000123.db"
  /\ files (Router.final r) !! dest = None
  /\ (forall p, p <> dest ->
        files (Router.final r) !! p = files Demo.busy_state !! p)
  /\ dbPath (Router.final r) = dbPath Demo.busy_state
  /\ Router.response r
     = Send 400 "Error: Uploaded file is not a valid SQLite database"
  /\ is_client_error (Router.response r) = true
  /\ Router.trace r
     = [Router.EvStore dest; Router.EvOpen dest false; Router.EvUnlink dest;
        Router.EvRespond (Router.response r)].
Proof.
  split; [vm_compute; reflexivity|].
  apply (invalid_upload_is_removed Demo.D Demo.busy_state Demo.garbage
           1700000000123).
  - vm_compute. reflexivity.
  - vm_compute. discriminate.
  - vm_compute. reflexivity.
Defined.

(** C5, as stated, fails: on the invalid-format path the stored file is
    unlinked and no close of the probe precedes the unlink. *)
Lemma invalid_upload_issues_no_close :
  ~ Router.closes_before_unlink
      (Router.trace
         (Router.upload_route Demo.D Demo.empty_state (Some Demo.garbage)
            1700000000123)).
Proof.
  intros H.
  pose (dest := Demo.uploads "databaseFile-1700000000123.db").
  specialize (H [Router.EvStore dest; Router.EvOpen dest false] dest
                [Router.EvRespond
                   (Send 400
                      "Error: Uploaded file is not a valid SQLite database")]).
  assert (Hin : In (Router.EvClose dest)
                   [Router.EvStore dest; Router.EvOpen dest false])
    by (apply H; vm_compute; reflexivity).
  destruct Hin as [Hin|[Hin|[]]]; discriminate.
Qed.

(** C5 (amended): no exit of the upload route leaves a probe connection
    open; when the open succeeds the connection is closed right after
    it, before the database is activated; when the stored file is
    unlinked, the open had failed, no connection is held at that point,
    and the route issues no close. *)
Theorem probe_released_on_every_path (D : deps) (st : state)
    (part : option Router.incoming) (now : Z) :
  let tr := Router.trace (Router.upload_route D st part now) in
  Router.held_after tr = ∅
  /\ (forall p, In (Router.EvOpen p true) tr ->
        exists post,
          tr = ([Router.EvStore p; Router.EvOpen p true; Router.EvClose p;
                 Router.EvSetGlobal p] ++ post)%list)
  /\ (forall pre p post, tr = (pre ++ Router.EvUnlink p :: post)%list ->
        In (Router.EvOpen p false) pre
        /\ Router.held_after pre = ∅
        /\ forall p', ~ In (Router.EvClose p') tr).
Proof.
  unfold Router.upload_route.
  destruct (Router.upload D (files st) part now) as [[message| |name] fs'];
    simpl.
  - split; [reflexivity|]. split.
    + intros p [Hp|[]]. discriminate.
    + intros pre p post H.
      destruct pre as [|e pre]; simplify_eq/=. now destruct pre.
  - split; [reflexivity|]. split.
    + intros p [Hp|[]]. discriminate.
    + intros pre p post H.
      destruct pre as [|e pre]; simplify_eq/=. now destruct pre.
  - destruct (Router.open_readonly D fs' _); simpl.
    + split.
      { unfold Router.held_after. simpl.
        now rewrite union_empty_l_L, difference_diag_L. }
      split.
      * intros p [Hp|[Hp|[Hp|[Hp|[Hp|[]]]]]]; try discriminate.
        injection Hp as <-. eauto.
      * intros pre p post H.
        do 5 (destruct pre as [|? pre]; simplify_eq/=).
        now destruct pre.
    + split; [reflexivity|]. split.
      * intros p [Hp|[Hp|[Hp|[Hp|[]]]]]; discriminate.
      * intros pre p post H.
        do 2 (destruct pre as [|? pre]; simplify_eq/=).
        destruct pre as [|? pre]; simplify_eq/=.
        -- split; [right; now left|].
           split; [reflexivity|].
           intros p' [Hp|[Hp|[Hp|[Hp|[]]]]]; discriminate.
        -- destruct pre as [|? pre]; simplify_eq/=. now destruct pre.
Qed.

(** An accepted upload: stored under the generated name, probed, closed,
    activated. *)
Example accepted_upload :
  let dest := Demo.uploads "databaseFile-1700000000123.SQLite" in
  Router.upload_route Demo.D Demo.empty_state (Some Demo.good) 1700000000123
  = Router.mkRun
      (mkState (<[dest := "SQLite format 3 agent"]> ∅) (Some dest))
      (Redirect "/projects")
      [Router.EvStore dest; Router.EvOpen dest true; Router.EvClose dest;
       Router.EvSetGlobal dest; Router.EvRespond (Redirect "/projects")].
Proof. vm_compute. reflexivity. Qed.

(** C6, as stated, fails: a file with a rejected extension is answered
    with status 500, which is no client error. *)
Lemma rejected_extension_is_server_error :
  Router.fileFilter Demo.report = false
  /\ Router.response
       (Router.upload_route Demo.D Demo.empty_state (Some Demo.report)
          1700000000123)
     = Send 500 Router.fileFilter_message
  /\ is_client_error
       (Router.response
          (Router.upload_route Demo.D Demo.empty_state (Some Demo.report)
             1700000000123))
     = false.
Proof. vm_compute. repeat split; reflexivity. Qed.

(** C6 (amended): the upload route answers a request without a file
    with 400 "No file selected"; a rejected extension and a file over
    the size limit with status 500 and the reason given by multer; a
    failed open probe with 400 "not a valid SQLite database"; an
    accepted file is stored, made the active database and answered with
    a redirect to /projects.  Every error reply has a non-empty body,
    and only a request without a file gets the no-file reply. *)
Theorem upload_replies (D : deps) (st : state)
    (part : option Router.incoming) (now : Z) :
  let r := Router.upload_route D st part now in
  match part with
  | None =>
      Router.response r = Send 400 "Error: No file selected"
      /\ Router.final r = st
  | Some file =>
      let dest := Router.destination D file now in
      Router.response r <> Send 400 "Error: No file selected"
      /\ if negb (Router.fileFilter file)
         then Router.response r = Send 500 Router.fileFilter_message
              /\ Router.final r = st
         else if Router.fileSize_limit <? Router.size file
         then Router.response r = Send 500 "File too large"
              /\ dbPath (Router.final r) = dbPath st
         else if sqlite_opens D (Router.bytes file)
         then Router.response r = Redirect "/projects"
              /\ dbPath (Router.final r) = Some dest
              /\ files (Router.final r) !! dest = Some (Router.bytes file)
         else Router.response r
              = Send 400 "Error: Uploaded file is not a valid SQLite database"
              /\ dbPath (Router.final r) = dbPath st
  end
  /\ (is_error (Router.response r) = true -> body_of (Router.response r) <> "").
Proof.
  destruct part as [file|]; simpl.
  - destruct (Router.fileFilter file) eqn:Hf; simpl.
    + destruct (Z.ltb_spec Router.fileSize_limit (Router.size file)).
      * destruct (upload_route_multer_error D st file now (or_intror H))
          as (message & fs' & -> & ->).
        rewrite Hf. simpl. repeat split; discriminate.
      * destruct (sqlite_opens D (Router.bytes file)) eqn:Ho.
        -- rewrite (upload_route_valid D st file now Hf H Ho). simpl.
           repeat split; try discriminate. apply lookup_insert_eq.
        -- rewrite (upload_route_invalid D st file now Hf H Ho). simpl.
           repeat split; discriminate.
    + destruct (upload_route_multer_error D st file now (or_introl Hf))
        as (message & fs' & Hr & ->).
      rewrite Hf in Hr. rewrite Hr.
      assert (Hfs : Router.final
                      (Router.upload_route D st (Some file) now) = st).
      { unfold Router.upload_route.
        rewrite (upload_rejected D _ _ _ Hf). now destruct st. }
      rewrite Hr in Hfs. simpl in *.
      repeat split; try discriminate. exact Hfs.
  - destruct st. repeat split. discriminate.
Qed.

(** ** The file routes and the active handle *)

Lemma unlink_spec (p : Path.t) (fs : Fs.t) :
  Fs.unlink p fs
  = match fs !! p with
    | Some _ => (Fs.Ok, delete p fs)
    | None => (Fs.Err "ENOENT", fs)
    end.
Proof. reflexivity. Qed.

(** C2: a deletion request whose name resolves to the active handle is
    refused with status 400 and leaves the whole state, files included,
    as it was; a request whose name resolves to any other path has the
    outcome of [fs.unlink] on that path: the files are those left by the
    unlink, the handle is kept, and the reply is the redirect or, when
    the unlink fails, the 500 error. *)
Theorem delete_database_guard (D : deps) (st : state) (name : JS.field)
    (p : Path.t) :
  Router.resolves D name p ->
  let r := Router.delete_database D st name in
  (dbPath st = Some p ->
     fst r = st
     /\ snd r
        = Send 400 "Deletion of the currently loaded database is not allowed."
     /\ is_client_error (snd r) = true)
  /\ (dbPath st <> Some p ->
        files (fst r) = snd (Fs.unlink p (files st))
        /\ dbPath (fst r) = dbPath st
        /\ snd r
           = match fst (Fs.unlink p (files st)) with
             | Fs.Ok => Redirect "/"
             | Fs.Err _ => Send 500 "Error deleting database file."
             end).
Proof.
  intros [Ht ->]. unfold Router.delete_database. rewrite Ht. simpl.
  split; intros Hp.
  - rewrite bool_decide_eq_true_2 by assumption. now repeat split.
  - rewrite bool_decide_eq_false_2 by assumption.
    rewrite unlink_spec.
    now destruct (files st !! _).
Qed.

Lemma delete_database_guard_witness :
  (Router.resolves Demo.D (Some "x/../main.db") Demo.main_db
   /\ dbPath Demo.busy_state = Some Demo.main_db
   /\ fst (Router.delete_database Demo.D Demo.busy_state
             (Some "x/../main.db"))
      = Demo.busy_state
   /\ snd (Router.delete_database Demo.D Demo.busy_state
             (Some "x/../main.db"))
      = Send 400 "Deletion of the currently loaded database is not allowed."
   /\ is_client_error
        (snd (Router.delete_database Demo.D Demo.busy_state
                (Some "x/../main.db")))
      = true)
  /\ (Router.resolves Demo.D (Some "old.db") (Demo.uploads "old.db")
      /\ dbPath Demo.busy_state <> Some (Demo.uploads "old.db")
      /\ files (fst (Router.delete_database Demo.D Demo.busy_state
                       (Some "old.db")))
         = snd (Fs.unlink (Demo.uploads "old.db") (files Demo.busy_state))
      /\ dbPath (fst (Router.delete_database Demo.D Demo.busy_state
                        (Some "old.db")))
         = dbPath Demo.busy_state
      /\ snd (Router.delete_database Demo.D Demo.busy_state (Some "old.db"))
         = match fst (Fs.unlink (Demo.uploads "old.db")
                        (files Demo.busy_state)) with
           | Fs.Ok => Redirect "/"
           | Fs.Err _ => Send 500 "Error deleting database file."
           end).
Proof.
  assert (R : Router.resolves Demo.D (Some "x/../main.db") Demo.main_db)
    by (split; vm_compute; reflexivity).
  assert (R' : Router.resolves Demo.D (Some "old.db") (Demo.uploads "old.db"))
    by (split; vm_compute; reflexivity).
  assert (N : dbPath Demo.busy_state <> Some (Demo.uploads "old.db"))
    by (vm_compute; discriminate).
  split.
  - split; [exact R|]. split; [reflexivity|].
    apply (delete_database_guard Demo.D Demo.busy_state _ _ R).
    reflexivity.
  - split; [exact R'|]. split; [exact N|].
    apply (delete_database_guard Demo.D Demo.busy_state _ _ R').
    exact N.
Defined.

(** Deleting a stored file other than the active one removes it. *)
Example delete_other_database :
  Router.delete_database Demo.D Demo.busy_state (Some "old.db")
  = (mkState (<[Demo.main_db := "SQLite format 3 main"]> ∅)
             (Some Demo.main_db),
     Redirect "/").
Proof. vm_compute. reflexivity. Qed.

(** A missing or empty name is answered before any path is resolved. *)
Lemma delete_database_without_name (D : deps) (st : state) (name : JS.field) :
  JS.truthy name = false ->
  Router.delete_database D st name
  = (st, Send 400 "Database name is required for deletion.").
Proof. intros H. unfold Router.delete_database. now rewrite H. Qed.


(** Renaming the active file leaves the handle on the old path. *)
Example rename_active_database_dangles :
  Router.active_exists Demo.busy_state
  /\ dbPath (fst (Router.handle Demo.D Demo.busy_state
                    (Router.RenameDatabase (Some "main.db") (Some "new.db"))))
     = Some Demo.main_db
  /\ files (fst (Router.handle Demo.D Demo.busy_state
                   (Router.RenameDatabase (Some "main.db") (Some "new.db"))))
     !! Demo.main_db = None.
Proof.
  split.
  - intros p [= <-]. vm_compute. eauto.
  - split; vm_compute; reflexivity.
Qed.

(** An upload that fails the probe and was stored under the name of the
    active file takes the active file with it. *)
Example upload_over_active_database_dangles :
  Router.active_exists Demo.clash_state
  /\ dbPath (fst (Router.handle Demo.D Demo.clash_state
                    (Router.Upload (Some Demo.garbage) 5)))
     = Some (Demo.uploads "databaseFile-5.db")
  /\ files (fst (Router.handle Demo.D Demo.clash_state
                   (Router.Upload (Some Demo.garbage) 5)))
     !! Demo.uploads "databaseFile-5.db" = None.
Proof.
  split.
  - intros p [= <-]. vm_compute. eauto.
  - split; vm_compute; reflexivity.
Qed.



(** ** Names that leave the uploads directory *)

Lemma escape_segs (D : deps) (leaf : string) :
  Path.plain leaf ->
  Path.split ("../" ++ leaf) = [".."; leaf] ->
  exists parent,
    Path.segs (Router.uploadsDir D) = (parent ++ ["uploads"])%list
    /\ Path.segs (Path.join (Router.uploadsDir D) ("../" ++ leaf))
       = (parent ++ [leaf])%list.
Proof.
  intros Hleaf Hsplit.
  destruct (uploadsDir_segs D) as (parent & Hparent & Hsegs).
  exists parent. split; [assumption|].
  rewrite join_segs.
  - rewrite Hsplit, Hsegs, rev_app_distr. simpl.
    rewrite norm_step_dotdot, (norm_step_plain _ _ Hleaf). simpl.
    now rewrite rev_involutive.
  - rewrite Hsegs. apply Forall_app. split; [assumption|].
    repeat constructor; discriminate.
Qed.

(** C10: the three routes hand [path.join(uploadsDir, name)] to the
    file system as it is.  For the name "../outside.db", which has a
    ".." segment, the resolved path is neither the uploads directory
    nor below it; select-database makes it the active handle, and
    delete-database unlinks the file it names, rename-database moves
    it, whenever such a file exists and is not the active one. *)
Theorem traversal_escapes_uploads (D : deps) :
  exists name,
    In ".." (Path.split name)
    /\ let p := Path.join (Router.uploadsDir D) name in
       ~ Path.inside (Router.uploadsDir D) p
       /\ p <> Router.uploadsDir D
       /\ (forall st,
             Router.select_database D st (Some name)
             = (mkState (files st) (Some p), Redirect "/projects"))
       /\ (forall st c,
             files st !! p = Some c ->
             dbPath st <> Some p ->
             Router.delete_database D st (Some name)
             = (mkState (delete p (files st)) (dbPath st), Redirect "/"))
       /\ (forall st c,
             files st !! p = Some c ->
             Router.rename_database D st (Some name) (Some "inside.db")
             = (mkState
                  (<[Path.join (Router.uploadsDir D) "inside.db" := c]>
                     (delete p (files st)))
                  (dbPath st),
                Redirect "/")).
Proof.
  exists "../outside.db". split; [simpl; auto|].
  destruct (escape_segs D "outside.db") as (parent & HU & Hp).
  { repeat split; discriminate. }
  { reflexivity. }
  simpl. repeat split.
  - intros (rest & Hrest & Heq).
    change ("../" ++ "outside.db") with "../outside.db" in Hp.
    rewrite Hp, HU, <- app_assoc in Heq.
    apply app_inv_head in Heq. discriminate.
  - intros Heq.
    change ("../" ++ "outside.db") with "../outside.db" in Hp.
    apply (f_equal Path.segs) in Heq. rewrite Hp, HU in Heq.
    apply app_inv_head in Heq. discriminate.
  - intros st c Hc Hact. unfold Router.delete_database. simpl.
    rewrite bool_decide_eq_false_2 by assumption.
    rewrite unlink_spec. simpl in Hc. now rewrite Hc.
  - intros st c Hc. unfold Router.rename_database, Fs.rename. simpl.
    simpl in Hc. rewrite Hc. reflexivity.
Qed.

(** * Further properties of the routes *)

(** ** What the file routes leave alone *)

Lemma state_eta (st : state) : mkState (files st) (dbPath st) = st.
Proof. now destruct st. Qed.

Lemma filename_truthy (file : Router.incoming) (now : Z) :
  JS.truthy (Some (Router.filename file now)) = true.
Proof. reflexivity. Qed.

(** X1: no request to a file route unsets [global.dbPath]: a handle
    that is set stays set, and rename-database and delete-database
    leave the handle exactly as it is. *)
Theorem handle_never_unset (D : deps) (st : state) (r : Router.request) :
  (is_Some (dbPath st) -> is_Some (dbPath (fst (Router.handle D st r))))
  /\ match r with
     | Router.RenameDatabase _ _ | Router.DeleteDatabase _ =>
         dbPath (fst (Router.handle D st r)) = dbPath st
     | _ => True
     end.
Proof.
  destruct r as [name|oldName newName|part now|name]; simpl.
  - split; [|exact I]. unfold Router.select_database.
    destruct (JS.truthy name); simpl; eauto.
  - assert (H : dbPath (fst (Router.rename_database D st oldName newName))
                = dbPath st).
    { unfold Router.rename_database.
      destruct (_ || _); [reflexivity|].
      destruct (Fs.rename _ _ _) as [[|code] fs']; reflexivity. }
    rewrite H. auto.
  - split; [|exact I]. unfold Router.upload_route.
    destruct (Router.upload D (files st) part now) as [[message| |name] fs'];
      simpl; try tauto.
    destruct (Router.open_readonly D fs' _); simpl; eauto.
  - assert (H : dbPath (fst (Router.delete_database D st name)) = dbPath st).
    { unfold Router.delete_database.
      destruct (JS.truthy name); simpl; [|reflexivity].
      case_bool_decide; [reflexivity|].
      destruct (Fs.unlink _ _) as [[|code] fs']; reflexivity. }
    rewrite H. auto.
Qed.

(** X2: a request that select-database, rename-database or
    delete-database answers with an error status changes neither the
    files nor the handle; an upload answered with an error status keeps
    the handle and every file other than the one at its destination. *)
Theorem refused_request_changes_nothing (D : deps) (st : state)
    (r : Router.request) :
  is_error (snd (Router.handle D st r)) = true ->
  match r with
  | Router.Upload (Some file) now =>
      dbPath (fst (Router.handle D st r)) = dbPath st
      /\ forall p, p <> Router.destination D file now ->
           files (fst (Router.handle D st r)) !! p = files st !! p
  | _ => fst (Router.handle D st r) = st
  end.
Proof.
  destruct r as [name|oldName newName|[file|] now|name]; simpl.
  - unfold Router.select_database.
    destruct (JS.truthy name); simpl; [discriminate|reflexivity].
  - unfold Router.rename_database.
    destruct (_ || _); [reflexivity|].
    destruct (Fs.rename _ _ _) as [[|code] fs']; simpl;
      [discriminate|reflexivity].
  - destruct (Router.fileFilter file) eqn:Hf.
    + destruct (Z.ltb_spec Router.fileSize_limit (Router.size file)).
      * unfold Router.upload_route.
        rewrite (upload_too_large D _ _ _ Hf H). simpl. intros _.
        split; [reflexivity|]. intros p Hp. now apply lookup_delete_ne.
      * destruct (sqlite_opens D (Router.bytes file)) eqn:Ho.
        -- rewrite (upload_route_valid D st file now Hf H Ho). discriminate.
        -- rewrite (upload_route_invalid D st file now Hf H Ho). simpl.
           intros _. split; [reflexivity|].
           intros p Hp. now apply lookup_delete_ne.
    + unfold Router.upload_route.
      rewrite (upload_rejected D _ _ _ Hf). simpl. now split.
  - intros _. apply state_eta.
  - unfold Router.delete_database.
    destruct (JS.truthy name); simpl; [|reflexivity].
    case_bool_decide; [reflexivity|].
    destruct (Fs.unlink _ _) as [[|code] fs']; simpl;
      [discriminate|reflexivity].
Qed.

Lemma refused_request_changes_nothing_witness :
  is_error
    (snd (Router.handle Demo.D Demo.busy_state
            (Router.RenameDatabase (Some "ghost.db") (Some "new.db"))))
  = true
  /\ fst (Router.handle Demo.D Demo.busy_state
            (Router.RenameDatabase (Some "ghost.db") (Some "new.db")))
     = Demo.busy_state.
Proof.
  assert (E : is_error
                (snd (Router.handle Demo.D Demo.busy_state
                        (Router.RenameDatabase (Some "ghost.db")
                           (Some "new.db"))))
              = true) by (vm_compute; reflexivity).
  split; [exact E|].
  exact (refused_request_changes_nothing Demo.D Demo.busy_state
           (Router.RenameDatabase (Some "ghost.db") (Some "new.db")) E).
Defined.

(** X3: whatever its outcome, an upload leaves every file other than
    the one at its destination as it was. *)
Theorem upload_touches_only_destination (D : deps) (st : state)
    (file : Router.incoming) (now : Z) (p : Path.t) :
  p <> Router.destination D file now ->
  files (Router.final (Router.upload_route D st (Some file) now)) !! p
  = files st !! p.
Proof.
  intros Hp.
  destruct (Router.fileFilter file) eqn:Hf.
  - destruct (Z.ltb_spec Router.fileSize_limit (Router.size file)).
    + unfold Router.upload_route.
      rewrite (upload_too_large D _ _ _ Hf H). simpl.
      now apply lookup_delete_ne.
    + destruct (sqlite_opens D (Router.bytes file)) eqn:Ho.
      * rewrite (upload_route_valid D st file now Hf H Ho). simpl.
        now apply lookup_insert_ne.
      * rewrite (upload_route_invalid D st file now Hf H Ho). simpl.
        now apply lookup_delete_ne.
  - unfold Router.upload_route.
    now rewrite (upload_rejected D _ _ _ Hf).
Qed.

Lemma upload_touches_only_destination_witness :
  Demo.main_db <> Router.destination Demo.D Demo.good 1700000000123
  /\ files (Router.final
              (Router.upload_route Demo.D Demo.busy_state (Some Demo.good)
                 1700000000123))
     !! Demo.main_db
     = files Demo.busy_state !! Demo.main_db.
Proof.
  assert (N : Demo.main_db
              <> Router.destination Demo.D Demo.good 1700000000123)
    by (vm_compute; discriminate).
  split; [exact N|].
  exact (upload_touches_only_destination Demo.D Demo.busy_state Demo.good
           1700000000123 Demo.main_db N).
Defined.

(** ** Selecting, uploading, then deleting *)

(** X4: once a name has been selected, a deletion request for any name
    that joins to the same path is refused with status 400 and the
    state stays as the selection left it. *)
Theorem selected_database_cannot_be_deleted (D : deps) (st : state)
    (selected target : JS.field) :
  JS.truthy selected = true ->
  JS.truthy target = true ->
  Path.join (Router.uploadsDir D) (JS.str target)
  = Path.join (Router.uploadsDir D) (JS.str selected) ->
  let st1 := fst (Router.select_database D st selected) in
  Router.delete_database D st1 target
  = (st1,
     Send 400 "Deletion of the currently loaded database is not allowed.").
Proof.
  intros Hs Ht Heq. unfold Router.select_database, Router.delete_database.
  rewrite Hs, Ht. simpl. rewrite Heq.
  now rewrite bool_decide_eq_true_2.
Qed.

Lemma selected_database_cannot_be_deleted_witness :
  Path.join (Router.uploadsDir Demo.D) "tmp/../old.db"
  = Path.join (Router.uploadsDir Demo.D) "old.db"
  /\ Router.delete_database Demo.D
       (fst (Router.select_database Demo.D Demo.busy_state (Some "old.db")))
       (Some "tmp/../old.db")
     = (fst (Router.select_database Demo.D Demo.busy_state (Some "old.db")),
        Send 400 "Deletion of the currently loaded database is not allowed.").
Proof.
  assert (E : Path.join (Router.uploadsDir Demo.D)
                (JS.str (Some "tmp/../old.db"))
              = Path.join (Router.uploadsDir Demo.D) (JS.str (Some "old.db")))
    by (vm_compute; reflexivity).
  split; [exact E|].
  exact (selected_database_cannot_be_deleted Demo.D Demo.busy_state
           (Some "old.db") (Some "tmp/../old.db") eq_refl eq_refl E).
Defined.

(** X5: after an accepted upload, a deletion request for the name the
    file was stored under is refused, and the uploaded bytes are still
    stored at the destination. *)
Theorem uploaded_database_cannot_be_deleted (D : deps) (st : state)
    (file : Router.incoming) (now : Z) :
  Router.fileFilter file = true ->
  Router.size file <= Router.fileSize_limit ->
  sqlite_opens D (Router.bytes file) = true ->
  let st1 := Router.final (Router.upload_route D st (Some file) now) in
  Router.delete_database D st1 (Some (Router.filename file now))
  = (st1,
     Send 400 "Deletion of the currently loaded database is not allowed.")
  /\ files st1 !! Router.destination D file now = Some (Router.bytes file).
Proof.
  intros Hf Hsize Ho.
  rewrite (upload_route_valid D st file now Hf Hsize Ho). simpl.
  split; [|apply lookup_insert_eq].
  unfold Router.delete_database. rewrite filename_truthy. simpl.
  now rewrite bool_decide_eq_true_2.
Qed.

Lemma uploaded_database_cannot_be_deleted_witness :
  Router.filename Demo.good 1700000000123
  = "databaseFile-1700000000123.SQLite"
  /\ (let st1 :=
        Router.final
          (Router.upload_route Demo.D Demo.busy_state (Some Demo.good)
             1700000000123) in
      Router.delete_database Demo.D st1
        (Some (Router.filename Demo.good 1700000000123))
      = (st1,
         Send 400 "Deletion of the currently loaded database is not allowed.")
      /\ files st1 !! Router.destination Demo.D Demo.good 1700000000123
         = Some (Router.bytes Demo.good)).
Proof.
  split; [vm_compute; reflexivity|].
  apply (uploaded_database_cannot_be_deleted Demo.D Demo.busy_state
           Demo.good 1700000000123).
  - vm_compute. reflexivity.
  - vm_compute. discriminate.
  - vm_compute. reflexivity.
Defined.

(** ** Renaming *)

Section RenameFacts.
Variable D : deps.


End RenameFacts.





(** ** Names that stay in the uploads directory *)

Section PlainNames.

Lemma chars_app (s1 s2 : string) :
  list_ascii_of_string (s1 ++ s2)
  = (list_ascii_of_string s1 ++ list_ascii_of_string s2)%list.
Proof. induction s1 as [|c s1 IH]; simpl; [reflexivity|]. now rewrite IH. Qed.

Lemma append_cons (c : ascii) (s1 s2 : string) :
  String c s1 ++ s2 = String c (s1 ++ s2).
Proof. reflexivity. Qed.

Lemma append_nil_l (s : string) : "" ++ s = s.
Proof. reflexivity. Qed.

Lemma string_app_assoc (s1 s2 s3 : string) :
  (s1 ++ s2) ++ s3 = s1 ++ (s2 ++ s3).
Proof.
  induction s1 as [|c s1 IH]; [reflexivity|].
  now rewrite !append_cons, IH.
Qed.

Lemma string_app_nil_r (s : string) : s ++ "" = s.
Proof.
  induction s as [|c s IH]; [reflexivity|]. now rewrite append_cons, IH.
Qed.

Lemma split_go_no_slash s : forall cur,
  Listing.no_slash s -> Path.split_go cur s = [cur ++ s].
Proof.
  induction s as [|c s IH]; intros cur Hs; simpl.
  - now rewrite string_app_nil_r.
  - inversion Hs as [|? ? Hc Hrest]; subst.
    destruct (Ascii.eqb_spec c Path.slash); [contradiction|].
    rewrite (IH _ Hrest). now rewrite string_app_assoc.
Qed.

Lemma split_no_slash s : Listing.no_slash s -> Path.split s = [s].
Proof. intros Hs. unfold Path.split. now rewrite split_go_no_slash. Qed.

Lemma ends_with_slash_no_slash s :
  Listing.no_slash s -> Path.ends_with_slash s = false.
Proof.
  unfold Path.ends_with_slash.
  induction s as [|c s IH]; intros Hs; simpl; [reflexivity|].
  inversion Hs as [|? ? Hc Hrest]; subst.
  destruct s as [|c' s'].
  - now destruct (Ascii.eqb_spec c Path.slash).
  - now apply IH.
Qed.

Lemma norm_segs_of_plain l : Forall Path.plain l -> Path.norm_segs l = l.
Proof.
  intros Hl. unfold Path.norm_segs.
  rewrite fold_norm_push by assumption.
  now rewrite app_nil_r, rev_involutive.
Qed.

Lemma uploadsDir_plain D : Forall Path.plain (Path.segs (Router.uploadsDir D)).
Proof.
  destruct (uploadsDir_segs D) as (parent & Hparent & ->).
  apply Forall_app. split; [assumption|].
  repeat constructor; discriminate.
Qed.

Lemma join_plain_name D name :
  Listing.no_slash name ->
  Path.plain name ->
  Path.join (Router.uploadsDir D) name
  = Path.mk (Path.segs (Router.uploadsDir D) ++ [name]) false.
Proof.
  intros Hs Hp. unfold Path.join.
  rewrite (split_no_slash _ Hs).
  rewrite norm_segs_of_plain.
  - destruct Hp as (Hne & _).
    destruct (String.eqb_spec name ""); [contradiction|].
    now rewrite (ends_with_slash_no_slash _ Hs).
  - apply Forall_app. split; [apply uploadsDir_plain|].
    constructor; [assumption|constructor].
Qed.

Lemma join_plain_name_inj D name other :
  Listing.no_slash name -> Path.plain name ->
  Listing.no_slash other -> Path.plain other ->
  Path.join (Router.uploadsDir D) other = Path.join (Router.uploadsDir D) name ->
  other = name.
Proof.
  intros Hs Hp Hos Hop Heq.
  rewrite (join_plain_name D name Hs Hp) in Heq.
  rewrite (join_plain_name D other Hos Hop) in Heq.
  injection Heq as Heq. apply app_inv_head in Heq. congruence.
Qed.

Lemma child_of_app dir name rest :
  Listing.child_of dir (dir ++ name :: rest) = Some name.
Proof.
  induction dir as [|d dir IH]; simpl; [reflexivity|].
  now rewrite String.eqb_refl.
Qed.

End PlainNames.

(** X8: a name without a separator, other than "", "." and "..", is
    resolved by every file route to the entry of that name directly in
    the uploads directory; two such names resolve to the same path only
    when they are the same name. *)
Theorem plain_name_stays_in_uploads (D : deps) (name : string) :
  Listing.no_slash name ->
  Path.plain name ->
  Path.join (Router.uploadsDir D) name
  = Path.mk (Path.segs (Router.uploadsDir D) ++ [name]) false
  /\ Path.inside (Router.uploadsDir D) (Path.join (Router.uploadsDir D) name)
  /\ Listing.child_of (Path.segs (Router.uploadsDir D))
       (Path.segs (Path.join (Router.uploadsDir D) name))
     = Some name
  /\ forall other,
       Listing.no_slash other -> Path.plain other ->
       Path.join (Router.uploadsDir D) other
       = Path.join (Router.uploadsDir D) name ->
       other = name.
Proof.
  intros Hs Hp. rewrite (join_plain_name D name Hs Hp).
  split; [reflexivity|]. split; [|split].
  - exists [name]. split; [discriminate|reflexivity].
  - apply child_of_app.
  - intros other Hos Hop Heq.
    rewrite <- (join_plain_name D name Hs Hp) in Heq.
    now apply (join_plain_name_inj D name other).
Qed.

Lemma plain_name_stays_in_uploads_witness :
  Path.join (Router.uploadsDir Demo.D) "main.db"
  = Path.mk (Path.segs (Router.uploadsDir Demo.D) ++ ["main.db"]) false
  /\ Path.inside (Router.uploadsDir Demo.D)
       (Path.join (Router.uploadsDir Demo.D) "main.db")
  /\ Listing.child_of (Path.segs (Router.uploadsDir Demo.D))
       (Path.segs (Path.join (Router.uploadsDir Demo.D) "main.db"))
     = Some "main.db"
  /\ forall other,
       Listing.no_slash other -> Path.plain other ->
       Path.join (Router.uploadsDir Demo.D) other
       = Path.join (Router.uploadsDir Demo.D) "main.db" ->
       other = "main.db".
Proof.
  apply (plain_name_stays_in_uploads Demo.D "main.db").
  - repeat constructor; discriminate.
  - repeat split; discriminate.
Defined.

(** X9: selecting one plain name protects no other: after [selected]
    has been selected, deleting a different plain name [target] is
    handed to [fs.unlink], which removes the file when it is stored and
    otherwise makes the route answer 500 without changing anything. *)
Theorem selection_protects_only_its_name (D : deps) (st : state)
    (selected target : string) :
  Listing.no_slash selected -> Path.plain selected ->
  Listing.no_slash target -> Path.plain target ->
  target <> selected ->
  let st1 := fst (Router.select_database D st (Some selected)) in
  let p := Path.join (Router.uploadsDir D) target in
  Router.delete_database D st1 (Some target)
  = match files st !! p with
    | Some _ => (mkState (delete p (files st)) (dbPath st1), Redirect "/")
    | None => (st1, Send 500 "Error deleting database file.")
    end.
Proof.
  intros Hss Hsp Hts Htp Hne.
  assert (T : forall s, Path.plain s -> JS.truthy (Some s) = true).
  { intros s (Hs & _). now apply truthy_Some. }
  unfold Router.select_database, Router.delete_database.
  rewrite (T _ Hsp), (T _ Htp).
  cbn [negb fst snd dbPath files JS.str default].
  rewrite bool_decide_eq_false_2.
  - rewrite unlink_spec.
    now destruct (files st !! _).
  - intros Heq. apply Hne.
    apply (join_plain_name_inj D selected target); try assumption.
    cbv [id] in Heq. congruence.
Qed.

Lemma selection_protects_only_its_name_witness :
  Router.delete_database Demo.D
    (fst (Router.select_database Demo.D Demo.busy_state (Some "main.db")))
    (Some "old.db")
  = match files Demo.busy_state
          !! Path.join (Router.uploadsDir Demo.D) "old.db" with
    | Some _ =>
        (mkState
           (delete (Path.join (Router.uploadsDir Demo.D) "old.db")
              (files Demo.busy_state))
           (dbPath
              (fst (Router.select_database Demo.D Demo.busy_state
                      (Some "main.db")))),
         Redirect "/")
    | None =>
        (fst (Router.select_database Demo.D Demo.busy_state (Some "main.db")),
         Send 500 "Error deleting database file.")
    end.
Proof.
  apply (selection_protects_only_its_name Demo.D Demo.busy_state
           "main.db" "old.db").
  - repeat constructor; discriminate.
  - repeat split; discriminate.
  - repeat constructor; discriminate.
  - repeat split; discriminate.
  - discriminate.
Defined.

(** ** What the browse route renders *)

Section BrowseFacts.
Variables (D : deps) (db : Path.t) (q : Query).

(** The shape of every view the [try] block builds. *)
Lemma resolve_shape v :
  Router.resolve D db q = Some v ->
  exists ps,
    getProjects D db = Some ps
    /\ v_projects v = js_sort (newest_first Project.created_at) ps
    /\ (v_task v = task q /\ v_epic v = epic q
        /\ v_iteration v = iteration q /\ v_llm_request v = llm_request q
        /\ v_agent v = agent q)
    /\ ((JS.truthy (v_selectedProjectId v) = false
         /\ v_branches v = [] /\ v_projectStates v = [])
        \/ exists bs,
             getBranchesByProjectId D db (JS.str (v_selectedProjectId v))
             = Some bs
             /\ v_branches v = js_sort (newest_first Branch.created_at) bs).
Proof.
  unfold Router.resolve.
  destruct (getProjects D db) as [ps|]; [|discriminate]. simpl.
  intros H. exists ps. split; [reflexivity|].
  destruct (JS.truthy (projectId q)) eqn:Hpid; simpl in H.
  - destruct (getBranchesByProjectId D db (JS.str (projectId q)))
      as [bs|] eqn:Hbs; [|discriminate]. simpl in H.
    destruct (JS.truthy _) in H.
    + destruct (_ || _) in H.
      * destruct (searchProjectStates D db _) in H; [|discriminate].
        injection H as <-. simpl. repeat split. right. eauto.
      * destruct (getProjectStatesByBranchId D db _) in H; [|discriminate].
        injection H as <-. simpl. repeat split. right. eauto.
    + injection H as <-. simpl. repeat split. right. eauto.
  - destruct (head _) as [latest|] in H.
    + destruct (getBranchesByProjectId D db (Project.id latest))
        as [bs|] eqn:Hbs; [|discriminate]. simpl in H.
      injection H as <-. simpl. repeat split. right. eauto.
    + injection H as <-. simpl. repeat split. left. now repeat split.
Qed.

(** With a provider that answers, the [try] block builds a view. *)
Lemma resolve_total :
  Router.provider_answers D db -> is_Some (Router.resolve D db q).
Proof.
  intros ([ps Hps] & Hbr & Hst & Hse).
  unfold Router.resolve. rewrite Hps. simpl.
  destruct (JS.truthy (projectId q)); simpl.
  - destruct (Hbr (JS.str (projectId q))) as [bs ->]. simpl.
    destruct (JS.truthy _); [|eauto].
    destruct (_ || _).
    + match goal with
      | |- context [searchProjectStates D db ?c] =>
          destruct (Hse c) as [states ->]
      end.
      simpl. eauto.
    + match goal with
      | |- context [getProjectStatesByBranchId D db ?b] =>
          destruct (Hst b) as [states ->]
      end.
      simpl. eauto.
  - destruct (head _) as [latest|]; [|eauto].
    destruct (Hbr (Project.id latest)) as [bs ->]. simpl. eauto.
Qed.

Lemma route_of_resolve v :
  Router.resolve D db q = Some v ->
  Router.projects_route D (Some db) q = Render "projects" v.
Proof. intros H. unfold Router.projects_route. now rewrite H. Qed.

Lemma resolve_of_route t v :
  Router.projects_route D (Some db) q = Render t v ->
  t = "projects" /\ Router.resolve D db q = Some v.
Proof.
  unfold Router.projects_route.
  destruct (Router.resolve D db q); [|discriminate].
  now intros [= <- <-].
Qed.

End BrowseFacts.

(** X10: when the provider answers, the browse route renders the
    projects page; its project list is the list of the provider
    rearranged into descending order of created_at, and its branch list
    is either empty, with no project selected, or the branches the
    provider holds for the selected project, rearranged into descending
    order of created_at. *)
Theorem rendered_lists_newest_first (D : deps) (db : Path.t) (q : Query) :
  Router.provider_answers D db ->
  exists v ps,
    Router.projects_route D (Some db) q = Render "projects" v
    /\ getProjects D db = Some ps
    /\ Permutation (v_projects v) ps
    /\ Sorted (fun a b => Project.created_at b <= Project.created_at a)
         (v_projects v)
    /\ Sorted (fun a b => Branch.created_at b <= Branch.created_at a)
         (v_branches v)
    /\ ((JS.truthy (v_selectedProjectId v) = false /\ v_branches v = [])
        \/ exists bs,
             getBranchesByProjectId D db (JS.str (v_selectedProjectId v))
             = Some bs
             /\ Permutation (v_branches v) bs).
Proof.
  intros Hans.
  destruct (resolve_total D db q Hans) as [v Hv].
  destruct (resolve_shape D db q v Hv) as (ps & Hps & Hvp & _ & Hbr).
  exists v, ps. split; [now apply route_of_resolve|].
  split; [assumption|]. rewrite Hvp.
  split; [apply js_sort_perm|]. split; [apply js_sort_sorted|].
  destruct Hbr as [(Hf & Hb & _)|(bs & Hbs & Hb)]; rewrite Hb.
  - split; [constructor|]. left. now split.
  - split; [apply js_sort_sorted|]. right. exists bs.
    split; [assumption|apply js_sort_perm].
Qed.

Lemma rendered_lists_newest_first_witness :
  exists v ps,
    Router.projects_route Demo.D (Some Demo.main_db) Demo.no_query
    = Render "projects" v
    /\ getProjects Demo.D Demo.main_db = Some ps
    /\ Permutation (v_projects v) ps
    /\ Sorted (fun a b => Project.created_at b <= Project.created_at a)
         (v_projects v)
    /\ Sorted (fun a b => Branch.created_at b <= Branch.created_at a)
         (v_branches v)
    /\ ((JS.truthy (v_selectedProjectId v) = false /\ v_branches v = [])
        \/ exists bs,
             getBranchesByProjectId Demo.D Demo.main_db
               (JS.str (v_selectedProjectId v))
             = Some bs
             /\ Permutation (v_branches v) bs).
Proof.
  apply (rendered_lists_newest_first Demo.D Demo.main_db Demo.no_query).
  repeat split; simpl; eauto.
Defined.

(** X11: every page the browse route renders uses the template
    "projects" and carries the five filter fields of the query exactly
    as they came in, whichever branch of the route built the view. *)
Theorem rendered_page_echoes_filters (D : deps) (db : Path.t) (q : Query)
    (t : string) (v : View) :
  Router.projects_route D (Some db) q = Render t v ->
  t = "projects"
  /\ v_task v = task q /\ v_epic v = epic q /\ v_iteration v = iteration q
  /\ v_llm_request v = llm_request q /\ v_agent v = agent q.
Proof.
  intros H. destruct (resolve_of_route D db q t v H) as [-> Hv].
  destruct (resolve_shape D db q v Hv) as (ps & _ & _ & He & _).
  now split.
Qed.

Lemma rendered_page_echoes_filters_witness :
  Router.projects_route Demo.D (Some Demo.main_db) Samples.only_llm_request
  = Render "projects"
      (mkView [Demo.P1; Demo.P2] [Demo.B1] [Demo.S1; Demo.S2] (Some "P1")
              (Some "B1") None None None (Some "42") None)
  /\ "projects" = "projects"
  /\ None = task Samples.only_llm_request
  /\ None = epic Samples.only_llm_request
  /\ None = iteration Samples.only_llm_request
  /\ Some "42" = llm_request Samples.only_llm_request
  /\ None = agent Samples.only_llm_request.
Proof.
  assert (E : Router.projects_route Demo.D (Some Demo.main_db)
                Samples.only_llm_request
              = Render "projects"
                  (mkView [Demo.P1; Demo.P2] [Demo.B1] [Demo.S1; Demo.S2]
                          (Some "P1") (Some "B1") None None None (Some "42")
                          None)) by reflexivity.
  split; [exact E|].
  exact (rendered_page_echoes_filters Demo.D Demo.main_db
           Samples.only_llm_request _ _ E).
Defined.

(** X12: llm_request is handed to the filtered search but does not
    start it: with a projectId and none of task, epic, iteration and
    agent, the page carries the unfiltered states of the selected
    branch, or no states when no branch is selected, whatever
    llm_request holds. *)
Theorem llm_request_alone_does_not_filter (D : deps) (db : Path.t)
    (q : Query) :
  Router.provider_answers D db ->
  JS.truthy (projectId q) = true ->
  JS.truthy (task q) = false ->
  JS.truthy (epic q) = false ->
  JS.truthy (iteration q) = false ->
  JS.truthy (agent q) = false ->
  exists v,
    Router.projects_route D (Some db) q = Render "projects" v
    /\ v_llm_request v = llm_request q
    /\ if JS.truthy (v_selectedBranchId v)
       then getProjectStatesByBranchId D db (JS.str (v_selectedBranchId v))
            = Some (v_projectStates v)
       else v_projectStates v = [].
Proof.
  intros (Hps & Hbr & Hst & _) Hpid Ht He Hi Ha.
  destruct Hps as [ps Hps].
  destruct (Hbr (JS.str (projectId q))) as [bs Hbs].
  unfold Router.projects_route, Router.resolve.
  rewrite Hps. simpl. rewrite Hpid. simpl. rewrite Hbs. simpl.
  rewrite Ht, He, Hi, Ha. simpl.
  match goal with
  | |- context [JS.truthy ?s] =>
      lazymatch s with
      | context [head] => destruct (JS.truthy s) eqn:Hsel
      end
  end.
  - match goal with
    | |- context [getProjectStatesByBranchId D db ?b] =>
        destruct (Hst b) as [states Hstates]
    end.
    rewrite Hstates. simpl. eexists. split; [reflexivity|]. simpl.
    rewrite Hsel. now split.
  - eexists. split; [reflexivity|]. simpl. rewrite Hsel. now split.
Qed.

Lemma llm_request_alone_does_not_filter_witness :
  searchProjectStates Demo.D Demo.main_db
    (mkCriteria None None None (Some "42") None (Some "B1"))
  = Some [Demo.S1]
  /\ exists v,
    Router.projects_route Demo.D (Some Demo.main_db) Samples.only_llm_request
    = Render "projects" v
    /\ v_llm_request v = llm_request Samples.only_llm_request
    /\ if JS.truthy (v_selectedBranchId v)
       then getProjectStatesByBranchId Demo.D Demo.main_db
              (JS.str (v_selectedBranchId v))
            = Some (v_projectStates v)
       else v_projectStates v = [].
Proof.
  split; [reflexivity|].
  apply (llm_request_alone_does_not_filter Demo.D Demo.main_db
           Samples.only_llm_request); try reflexivity.
  repeat split; simpl; eauto.
Defined.

(** ** The detail routes *)



(** X14: with a database active, each of the seven column tokens is
    served by a template of its own, the page carrying what the query
    of that column resolved to; a rejected query is answered with 500
    "Error fetching column details", never with 400. *)
Theorem known_detail_column_served (Q : Details.queries) (db : Path.t)
    (column projectStateId : string) :
  In column Details.columns ->
  exists template query,
    In (column, template)
       [("epic", "details/epicDetails"); ("task", "details/taskDetails");
        ("step", "details/stepDetails"); ("files", "details/fileDetails");
        ("userInputs", "details/userInputDetails");
        ("llmRequests", "details/llmRequests");
        ("iteration", "details/iterationDetails")]
    /\ In (column, query)
         [("epic", Details.getEpicDetailsByProjectStateId Q);
          ("task", Details.getTaskDetailsByProjectStateId Q);
          ("step", Details.getStepDetailsByProjectStateId Q);
          ("files", Details.getFileDetailsByProjectStateId Q);
          ("userInputs", Details.getUserInputDetailsByProjectStateId Q);
          ("llmRequests", Details.getLLMRequestDetailsByProjectStateId Q);
          ("iteration", Details.getIterationDetailsByProjectStateId Q)]
    /\ Details.column_route Q (Some db) column projectStateId
       = match query db projectStateId with
         | Some details => Details.Render template details
         | None =>
             Details.Reply (Send 500 "Error fetching column details")
         end.
Proof.
  intros Hc. unfold Details.columns in Hc. simpl in Hc.
  destruct Hc as [<-|[<-|[<-|[<-|[<-|[<-|[<-|[]]]]]]]];
    eexists _, _; (split; [|split; [|reflexivity]]); simpl; tauto.
Qed.

Lemma known_detail_column_served_witness :
  exists template query,
    In ("iteration", template)
       [("epic", "details/epicDetails"); ("task", "details/taskDetails");
        ("step", "details/stepDetails"); ("files", "details/fileDetails");
        ("userInputs", "details/userInputDetails");
        ("llmRequests", "details/llmRequests");
        ("iteration", "details/iterationDetails")]
    /\ In ("iteration", query)
         [("epic", Details.getEpicDetailsByProjectStateId Samples.Q);
          ("task", Details.getTaskDetailsByProjectStateId Samples.Q);
          ("step", Details.getStepDetailsByProjectStateId Samples.Q);
          ("files", Details.getFileDetailsByProjectStateId Samples.Q);
          ("userInputs",
           Details.getUserInputDetailsByProjectStateId Samples.Q);
          ("llmRequests",
           Details.getLLMRequestDetailsByProjectStateId Samples.Q);
          ("iteration",
           Details.getIterationDetailsByProjectStateId Samples.Q)]
    /\ Details.column_route Samples.Q (Some Demo.main_db) "iteration" "S1"
       = match query Demo.main_db "S1" with
         | Some details => Details.Render template details
         | None =>
             Details.Reply (Send 500 "Error fetching column details")
         end.
Proof.
  apply (known_detail_column_served Samples.Q Demo.main_db "iteration" "S1").
  simpl. tauto.
Defined.

(** X15: the route for llm-requests and the generic route with the
    column "llmRequests" give the same page, from the same query and
    template, except when the query is rejected: both then answer 500,
    the first with "Error fetching LLM request details" and the second
    with "Error fetching column details". *)
Theorem llm_requests_alias (Q : Details.queries) (active : option Path.t)
    (projectStateId : string) :
  let alias := Details.llm_requests_route Q active projectStateId in
  let generic := Details.column_route Q active "llmRequests" projectStateId in
  match active with
  | Some db =>
      match Details.getLLMRequestDetailsByProjectStateId Q db projectStateId
      with
      | Some details =>
          alias = Details.Render "details/llmRequests" details
          /\ generic = alias
      | None =>
          alias
          = Details.Reply (Send 500 "Error fetching LLM request details")
          /\ generic
             = Details.Reply (Send 500 "Error fetching column details")
      end
  | None =>
      alias = Details.Reply (Send 400 "No database file specified.")
      /\ generic = alias
  end.
Proof.
  destruct active as [db|]; simpl; [|now split].
  unfold Details.render_or.
  now destruct (Details.getLLMRequestDetailsByProjectStateId Q db _).
Qed.

(** ** The extension of a name *)

Section ExtnameScan.

Lemma string_length_chars s :
  String.length s = length (list_ascii_of_string s).
Proof. induction s as [|c s IH]; simpl; [reflexivity|]. now rewrite IH. Qed.

Lemma indexed_from_cons off c l :
  Scan.indexed_from off (c :: l)
  = (Z.of_nat off, c) :: Scan.indexed_from (S off) l.
Proof. reflexivity. Qed.

Lemma indexed_from_app l1 : forall off l2,
  Scan.indexed_from off (l1 ++ l2)
  = (Scan.indexed_from off l1
     ++ Scan.indexed_from (off + length l1) l2)%list.
Proof.
  induction l1 as [|c l1 IH]; intros off l2.
  - simpl. now rewrite Nat.add_0_r.
  - rewrite <- app_comm_cons, !indexed_from_cons, IH. simpl.
    now rewrite Nat.add_succ_r.
Qed.

Lemma scan_nil st off : Scan.scan st off [] = st.
Proof. reflexivity. Qed.

Lemma scan_app st off l1 l2 :
  Scan.scan st off (l1 ++ l2)
  = Scan.scan (Scan.scan st (off + length l1) l2) off l1.
Proof.
  unfold Scan.scan. rewrite indexed_from_app, rev_app_distr.
  apply fold_left_app.
Qed.

Lemma scan_one st off c :
  Scan.scan st off [c] = Path.ext_step st (Z.of_nat off, c).
Proof. reflexivity. Qed.

Lemma scan_snoc st off l c :
  Scan.scan st off (l ++ [c])
  = Scan.scan (Path.ext_step st (Z.of_nat (off + length l), c)) off l.
Proof. now rewrite scan_app, scan_one. Qed.

Lemma extname_scan p :
  Path.extname p
  = Scan.finish p (Scan.scan Path.ext_init 0 (list_ascii_of_string p)).
Proof.
  unfold Path.extname, Scan.finish, Scan.scan, Path.indexed,
    Scan.indexed_from.
  now rewrite string_length_chars.
Qed.

End ExtnameScan.

Section ExtnamePhases.

Lemma clean_not_slash c : Listing.clean_char c -> Ascii.eqb c Path.slash = false.
Proof. intros [H _]. now destruct (Ascii.eqb_spec c Path.slash). Qed.

Lemma clean_not_dot c : Listing.clean_char c -> Ascii.eqb c Path.dot = false.
Proof. intros [_ H]. now destruct (Ascii.eqb_spec c Path.dot). Qed.

Lemma eqb_minus_one_false z : z <> -1 -> (z =? -1) = false.
Proof. intros H. now destruct (Z.eqb_spec z (-1)). Qed.

(** Without a dot the loop never records one. *)
Lemma ext_step_no_dot st i c :
  c <> Path.dot -> Path.startDot st = -1 ->
  Path.startDot (Path.ext_step st (i, c)) = -1.
Proof.
  intros Hc Hsd. unfold Path.ext_step.
  destruct (Path.stopped st); [assumption|].
  destruct (Ascii.eqb c Path.slash).
  - now destruct (negb (Path.matchedSlash st)).
  - destruct (Ascii.eqb_spec c Path.dot); [contradiction|].
    destruct (Path.end_ st =? -1); simpl; rewrite Hsd; simpl;
      assumption || reflexivity.
Qed.

Lemma scan_no_dot l : forall st off,
  Forall (fun c => c <> Path.dot) l ->
  Path.startDot st = -1 ->
  Path.startDot (Scan.scan st off l) = -1.
Proof.
  induction l as [|c l IH] using rev_ind; intros st off Hl Hsd;
    [assumption|].
  apply Forall_app in Hl as [Hl Hc]. inversion Hc; subst.
  rewrite scan_snoc. apply IH; [assumption|].
  now apply ext_step_no_dot.
Qed.

Lemma extname_no_dot s : Listing.no_dot s -> Path.extname s = "".
Proof.
  intros Hs. rewrite extname_scan. unfold Scan.finish.
  now rewrite (scan_no_dot _ Path.ext_init 0 Hs eq_refl).
Qed.

(** The loop over characters that are neither separators nor dots. *)
Lemma scan_clean_open l : forall off sp e ms pd,
  Forall Listing.clean_char l -> e <> -1 ->
  Scan.scan (Path.mk_ext (-1) sp e ms pd false) off l
  = Path.mk_ext (-1) sp e ms pd false.
Proof.
  induction l as [|c l IH] using rev_ind; intros off sp e ms pd Hl He;
    [reflexivity|].
  apply Forall_app in Hl as [Hl Hc]. inversion Hc as [|? ? Hcc _]; subst.
  rewrite scan_snoc. unfold Path.ext_step. simpl.
  rewrite (clean_not_slash _ Hcc), (clean_not_dot _ Hcc),
    (eqb_minus_one_false _ He). simpl.
  now apply IH.
Qed.

Lemma scan_clean_fresh l off sp pd :
  Forall Listing.clean_char l -> l <> [] ->
  Scan.scan (Path.mk_ext (-1) sp (-1) true pd false) off l
  = Path.mk_ext (-1) sp (Z.of_nat (off + length l)) false pd false.
Proof.
  destruct l as [|c l] using rev_ind; [congruence|]. intros Hl _.
  apply Forall_app in Hl as [Hl Hc]. inversion Hc as [|? ? Hcc _]; subst.
  rewrite scan_snoc. unfold Path.ext_step. simpl.
  rewrite (clean_not_slash _ Hcc), (clean_not_dot _ Hcc). simpl.
  rewrite scan_clean_open by (assumption || lia).
  f_equal. rewrite length_app. simpl. lia.
Qed.

Lemma scan_clean_seen l : forall off sd sp e ms,
  Forall Listing.clean_char l -> sd <> -1 -> e <> -1 ->
  Scan.scan (Path.mk_ext sd sp e ms (-1) false) off l
  = Path.mk_ext sd sp e ms (-1) false.
Proof.
  induction l as [|c l IH] using rev_ind; intros off sd sp e ms Hl Hsd He;
    [reflexivity|].
  apply Forall_app in Hl as [Hl Hc]. inversion Hc as [|? ? Hcc _]; subst.
  rewrite scan_snoc. unfold Path.ext_step. simpl.
  rewrite (clean_not_slash _ Hcc), (eqb_minus_one_false _ He). simpl.
  rewrite (clean_not_dot _ Hcc), (eqb_minus_one_false _ Hsd). simpl.
  now apply IH.
Qed.

Lemma scan_clean_dotted l off sd sp e ms pd :
  Forall Listing.clean_char l -> l <> [] -> sd <> -1 -> e <> -1 ->
  Scan.scan (Path.mk_ext sd sp e ms pd false) off l
  = Path.mk_ext sd sp e ms (-1) false.
Proof.
  destruct l as [|c l] using rev_ind; [congruence|]. intros Hl _ Hsd He.
  apply Forall_app in Hl as [Hl Hc]. inversion Hc as [|? ? Hcc _]; subst.
  rewrite scan_snoc. unfold Path.ext_step. simpl.
  rewrite (clean_not_slash _ Hcc), (eqb_minus_one_false _ He). simpl.
  rewrite (clean_not_dot _ Hcc), (eqb_minus_one_false _ Hsd). simpl.
  now apply scan_clean_seen.
Qed.

(** The loop over a dot followed by clean characters, from the start. *)
Lemma scan_dot_clean w n :
  Forall Listing.clean_char w ->
  Scan.scan Path.ext_init n (Path.dot :: w)
  = Path.mk_ext (Z.of_nat n) 0 (Z.of_nat (n + 1 + length w)) false 0 false.
Proof.
  intros Hw. change (Path.dot :: w) with ([Path.dot] ++ w)%list.
  rewrite scan_app, scan_one. simpl length.
  destruct w as [|c w].
  - rewrite scan_nil. unfold Path.ext_step, Path.ext_init. simpl.
    f_equal; lia.
  - unfold Path.ext_init.
    rewrite scan_clean_fresh by (assumption || discriminate).
    unfold Path.ext_step. simpl Path.stopped. cbv iota.
    change (Ascii.eqb Path.dot Path.slash) with false.
    change (Ascii.eqb Path.dot Path.dot) with true. cbv iota.
    simpl Path.end_.
    match goal with
    | |- context [Z.of_nat ?x =? -1] =>
        rewrite (eqb_minus_one_false (Z.of_nat x)) by lia
    end.
    simpl. f_equal; lia.
Qed.

Lemma substring_middle u : forall m v,
  substring (length u) (length m) (string_of_list_ascii (u ++ m ++ v))
  = string_of_list_ascii m.
Proof.
  induction u as [|c u IH]; intros m v; simpl.
  - induction m as [|d m IHm]; simpl.
    + now destruct (string_of_list_ascii v).
    + now rewrite IHm.
  - apply IH.
Qed.

Lemma slice_middle p u m v :
  list_ascii_of_string p = (u ++ m ++ v)%list ->
  Path.slice p (Z.of_nat (length u)) (Z.of_nat (length u + length m))
  = string_of_list_ascii m.
Proof.
  intros Hp. unfold Path.slice.
  rewrite <- (string_of_list_ascii_of_string p), Hp.
  replace (Z.to_nat (Z.of_nat (length u + length m) - Z.of_nat (length u)))
    with (length m) by lia.
  rewrite Nat2Z.id. apply substring_middle.
Qed.

(** A stem without dot or separator, a dot, an extension without dot or
    separator: the extension is what follows the stem. *)
Lemma extname_stem_ext stem w :
  Listing.clean stem -> stem <> "" -> Listing.clean w ->
  Path.extname (stem ++ String Path.dot w) = String Path.dot w.
Proof.
  intros Hstem Hne Hw. rewrite extname_scan.
  rewrite chars_app. simpl list_ascii_of_string.
  rewrite scan_app. simpl plus.
  rewrite (scan_dot_clean _ _ Hw).
  rewrite scan_clean_dotted; try assumption; try lia.
  - unfold Scan.finish. simpl.
    rewrite !eqb_minus_one_false by lia. simpl.
    replace (Z.of_nat (length (list_ascii_of_string stem) + 1
                       + length (list_ascii_of_string w)))
      with (Z.of_nat (length (list_ascii_of_string stem)
                      + length (Path.dot :: list_ascii_of_string w)))
      by (simpl; lia).
    rewrite (slice_middle _ (list_ascii_of_string stem)
               (Path.dot :: list_ascii_of_string w) []).
    + simpl. now rewrite string_of_list_ascii_of_string.
    + rewrite chars_app. simpl. now rewrite app_nil_r.
  - destruct stem; [congruence|discriminate].
Qed.

End ExtnamePhases.

Example extname_stem_ext_sample :
  Path.extname ("databaseFile-17" ++ String Path.dot "SQLite") = ".SQLite".
Proof.
  apply extname_stem_ext; try discriminate;
    repeat constructor; discriminate.
Qed.

Section ExtnameShape.

Lemma inv_init p : Scan.inv p (length p) Path.ext_init.
Proof.
  unfold Scan.inv, Path.ext_init. simpl.
  split; [reflexivity|]. split; [congruence|congruence].
Qed.

Lemma inv_step p a c b st :
  p = (a ++ c :: b)%list ->
  Scan.inv p (S (length a)) st ->
  Scan.inv p (length a) (Path.ext_step st (Z.of_nat (length a), c)).
Proof.
  intros Hp.
  assert (Hk1 : skipn (length a) p = c :: b)
    by (rewrite Hp; apply drop_app_length).
  assert (Hk2 : skipn (S (length a)) p = b).
  { rewrite Hp. change (a ++ c :: b)%list with (a ++ [c] ++ b)%list.
    rewrite app_assoc.
    replace (S (length a)) with (length (a ++ [c]))
      by (rewrite length_app; simpl; lia).
    apply drop_app_length. }
  destruct st as [sd sp e ms pd stp]. unfold Scan.inv. simpl.
  intros (Hms & H1 & H2).
  unfold Path.ext_step. simpl.
  destruct stp; simpl.
  { split; [assumption|]. split; [congruence|assumption]. }
  destruct (Ascii.eqb_spec c Path.slash) as [Hslash|Hslash].
  { destruct ms; simpl.
    - split; [assumption|]. split; [|assumption].
      intros _ _ He. now specialize (Hms eq_refl).
    - split; [congruence|]. split; [congruence|assumption]. }
  assert (Hsd_e : sd <> -1 -> e <> -1).
  { intros Hsd. destruct (H2 Hsd) as (u & w & v & _ & _ & He & _). lia. }
  destruct (Ascii.eqb_spec c Path.dot) as [Hdot|Hdot].
  - (* a dot *)
    destruct (Z.eqb_spec sd (-1)) as [Hsd|Hsd].
    + subst sd.
      destruct (Z.eqb_spec e (-1)) as [He|He]; simpl.
      * split; [congruence|]. split; [lia|]. intros _.
        exists a, [], b. subst c. repeat split; try assumption.
        -- simpl. lia.
        -- constructor.
      * split; [assumption|]. split; [lia|]. intros _.
        destruct (H1 eq_refl eq_refl He) as (w & v & Hwv & Hlen & Hclean).
        exists a, w, v. subst c. repeat split; try assumption.
        -- rewrite Hp. now rewrite <- Hwv, Hk2.
        -- lia.
    + rewrite (eqb_minus_one_false _ (Hsd_e Hsd)). simpl.
      rewrite (eqb_minus_one_false _ Hsd). simpl.
      destruct (negb (pd =? 1)); simpl;
        (split; [assumption|]; split; [congruence|assumption]).
  - (* neither a dot nor a separator *)
    assert (Hc : Listing.clean_char c) by now split.
    destruct (Z.eqb_spec sd (-1)) as [Hsd|Hsd].
    + subst sd.
      destruct (Z.eqb_spec e (-1)) as [He|He]; simpl.
      * split; [congruence|]. split; [|congruence]. intros _ _ _.
        exists [c], b. repeat split; try assumption.
        -- simpl. lia.
        -- now constructor.
      * split; [assumption|]. split; [|congruence]. intros _ _ _.
        destruct (H1 eq_refl eq_refl He) as (w & v & Hwv & Hlen & Hclean).
        exists (c :: w), v. repeat split.
        -- rewrite Hk1. simpl. now rewrite <- Hwv, Hk2.
        -- simpl. lia.
        -- now constructor.
    + rewrite (eqb_minus_one_false _ (Hsd_e Hsd)). simpl.
      rewrite (eqb_minus_one_false _ Hsd). simpl.
      split; [assumption|]. split; [congruence|assumption].
Qed.

Lemma scan_inv p a : forall b st,
  p = (a ++ b)%list ->
  Scan.inv p (length a) st ->
  Scan.inv p 0 (Scan.scan st 0 a).
Proof.
  induction a as [|c a IH] using rev_ind; intros b st Hp Hinv;
    [assumption|].
  rewrite scan_snoc. simpl plus.
  rewrite <- app_assoc in Hp. simpl in Hp.
  apply (IH (c :: b)); [assumption|].
  apply (inv_step p a c b); [assumption|].
  now rewrite length_app, Nat.add_comm in Hinv.
Qed.

(** The extension is empty or a dot followed by characters that are
    neither separators nor dots. *)
Lemma extname_shape p :
  Path.extname p = ""
  \/ exists w, Listing.clean w /\ Path.extname p = String Path.dot w.
Proof.
  rewrite extname_scan.
  pose proof (scan_inv (list_ascii_of_string p) (list_ascii_of_string p)
                [] Path.ext_init) as Hinv.
  rewrite app_nil_r in Hinv. specialize (Hinv eq_refl (inv_init _)).
  destruct Hinv as (_ & _ & H2).
  unfold Scan.finish.
  destruct (Z.eqb_spec (Path.startDot
              (Scan.scan Path.ext_init 0 (list_ascii_of_string p))) (-1))
    as [Hsd|Hsd]; [now left|].
  simpl. destruct (_ || _); [now left|]. right.
  destruct (H2 Hsd) as (u & w & v & Hp & Hu & He & Hclean).
  exists (string_of_list_ascii w). split.
  - unfold Listing.clean. now rewrite list_ascii_of_string_of_list_ascii.
  - rewrite <- Hu, <- He.
    replace (Z.of_nat (length u + 1 + length w))
      with (Z.of_nat (length u + length (Path.dot :: w)))
      by (simpl; lia).
    now rewrite (slice_middle p u (Path.dot :: w) v).
Qed.

End ExtnameShape.

(** ** The name an upload is stored under *)

Section StoredName.

Lemma clean_app s1 s2 :
  Listing.clean s1 -> Listing.clean s2 -> Listing.clean (s1 ++ s2).
Proof.
  unfold Listing.clean. rewrite chars_app. intros H1 H2.
  apply Forall_app. now split.
Qed.

Lemma clean_no_slash s : Listing.clean s -> Listing.no_slash s.
Proof. apply List.Forall_impl. now intros c [H _]. Qed.

Lemma clean_no_dot s : Listing.clean s -> Listing.no_dot s.
Proof. apply List.Forall_impl. now intros c [_ H]. Qed.

Lemma digits_clean d : Listing.clean (NilEmpty.string_of_uint d).
Proof.
  unfold Listing.clean.
  induction d; simpl; constructor; try assumption; split; discriminate.
Qed.

Lemma decimal_clean n : Listing.clean (Router.decimal n).
Proof.
  unfold Router.decimal, NilZero.string_of_uint.
  destruct (N.to_uint (Z.to_N n)) eqn:E; try (rewrite <- E; apply digits_clean);
    try apply digits_clean.
  repeat constructor; discriminate.
Qed.

(** The decimal rendering can be read back. *)
Lemma decimal_read n :
  0 <= n ->
  option_map N.of_uint (NilZero.uint_of_string (Router.decimal n))
  = Some (Z.to_N n).
Proof.
  intros _. unfold Router.decimal.
  rewrite <- (DecimalN.Unsigned.of_to (Z.to_N n)) at 2.
  destruct (N.to_uint (Z.to_N n)) eqn:E; try reflexivity;
    rewrite NilZero.usu by discriminate; reflexivity.
Qed.

Lemma decimal_inj n m :
  0 <= n -> 0 <= m -> Router.decimal n = Router.decimal m -> n = m.
Proof.
  intros Hn Hm E.
  pose proof (decimal_read n Hn) as Rn. pose proof (decimal_read m Hm) as Rm.
  rewrite E, Rm in Rn. injection Rn as Rn. lia.
Qed.

Lemma stem_clean now :
  Listing.clean (Router.fieldname ++ "-" ++ Router.decimal now).
Proof.
  apply clean_app; [repeat constructor; discriminate|].
  apply clean_app; [repeat constructor; discriminate|apply decimal_clean].
Qed.

Lemma filename_split file now :
  Router.filename file now
  = (Router.fieldname ++ "-" ++ Router.decimal now)
    ++ Path.extname (Router.originalname file).
Proof.
  unfold Router.filename. now rewrite !string_app_assoc.
Qed.

Lemma extname_of_filename file now :
  Path.extname (Router.filename file now)
  = Path.extname (Router.originalname file).
Proof.
  rewrite filename_split.
  destruct (extname_shape (Router.originalname file))
    as [E|(w & Hw & E)]; rewrite E.
  - rewrite string_app_nil_r.
    apply extname_no_dot, clean_no_dot, stem_clean.
  - apply extname_stem_ext; [apply stem_clean|discriminate|assumption].
Qed.

Lemma extname_no_slash p : Listing.no_slash (Path.extname p).
Proof.
  destruct (extname_shape p) as [E|(w & Hw & E)]; rewrite E.
  - constructor.
  - constructor; [discriminate|]. now apply clean_no_slash.
Qed.

Lemma filename_no_slash file now :
  Listing.no_slash (Router.filename file now).
Proof.
  rewrite filename_split. unfold Listing.no_slash. rewrite chars_app.
  apply Forall_app. split.
  - apply clean_no_slash, stem_clean.
  - apply extname_no_slash.
Qed.

Lemma filename_plain file now : Path.plain (Router.filename file now).
Proof. repeat split; discriminate. Qed.

Lemma destination_child D file now :
  Router.destination D file now
  = Path.mk (Path.segs (Router.uploadsDir D) ++ [Router.filename file now])
            false.
Proof.
  apply join_plain_name; [apply filename_no_slash|apply filename_plain].
Qed.

(** A dot-free string followed by an extension splits in one way. *)
Lemma stem_ext_unique d : forall d' e e',
  Listing.no_dot d -> Listing.no_dot d' ->
  (e = "" \/ exists w, e = String Path.dot w) ->
  (e' = "" \/ exists w, e' = String Path.dot w) ->
  d ++ e = d' ++ e' -> d = d'.
Proof.
  induction d as [|c d IH]; intros d' e e' Hd Hd' He He' Heq.
  - destruct d' as [|c' d']; [reflexivity|].
    inversion Hd' as [|? ? Hc' _]; subst.
    rewrite append_nil_l, append_cons in Heq.
    destruct He as [->|(w & ->)]; [discriminate|].
    injection Heq as Hc _. now subst c'.
  - inversion Hd as [|? ? Hc Hrest]; subst.
    destruct d' as [|c' d'].
    + rewrite append_nil_l, append_cons in Heq.
      destruct He' as [->|(w & ->)]; [discriminate|].
      injection Heq as E _. now subst c.
    + inversion Hd' as [|? ? _ Hrest']; subst.
      rewrite !append_cons in Heq. injection Heq as -> Heq.
      f_equal. now apply (IH d' e e').
Qed.

Lemma extname_cases p :
  Path.extname p = "" \/ exists w, Path.extname p = String Path.dot w.
Proof.
  destruct (extname_shape p) as [E|(w & _ & E)]; [now left|right; eauto].
Qed.

Lemma filename_inj file now file' now' :
  0 <= now -> 0 <= now' ->
  Router.filename file now = Router.filename file' now' -> now = now'.
Proof.
  intros Hn Hn' E. unfold Router.filename in E.
  apply String.app_inj in E. apply String.app_inj in E.
  apply decimal_inj; try assumption.
  apply (stem_ext_unique _ _ _ _
           (clean_no_dot _ (decimal_clean now))
           (clean_no_dot _ (decimal_clean now'))
           (extname_cases _) (extname_cases _) E).
Qed.

End StoredName.

(** X16: the name an upload is stored under has the extension of the
    original name, so the listing filter of the root page accepts the
    stored name exactly when the upload filter accepted the original
    one. *)
Theorem stored_filename_keeps_extension (file : Router.incoming) (now : Z) :
  Path.extname (Router.filename file now)
  = Path.extname (Router.originalname file)
  /\ Listing.listed (Router.filename file now) = Router.fileFilter file.
Proof.
  split; [apply extname_of_filename|].
  unfold Listing.listed, Router.fileFilter.
  now rewrite extname_of_filename.
Qed.

(** ** The listing of the root page *)

Section ListingFacts.

Lemma readdir_child dir (fs : Fs.t) p name :
  is_Some (fs !! p) ->
  Listing.child_of (Path.segs dir) (Path.segs p) = Some name ->
  In name (Listing.readdir dir fs).
Proof.
  intros Hp Hc. apply list_elem_of_In. unfold Listing.readdir.
  apply elem_of_remove_dups, list_elem_of_omap.
  exists p. split; [|assumption].
  now apply elem_of_elements, elem_of_dom.
Qed.

Lemma databases_spec D st name :
  In name (Listing.databases D st)
  <-> Listing.listed name = true
      /\ In name (Listing.readdir (Router.uploadsDir D) (files st)).
Proof.
  unfold Listing.databases, Listing.index_route, Listing.index_callback.
  rewrite <- !list_elem_of_In, list_elem_of_filter. tauto.
Qed.

End ListingFacts.

(** X17: after an accepted upload, the root page lists the name the
    file was stored under, and selecting that listed name makes the
    uploaded file the active database again. *)
Theorem accepted_upload_is_listed (D : deps) (st : state)
    (file : Router.incoming) (now : Z) :
  Router.fileFilter file = true ->
  Router.size file <= Router.fileSize_limit ->
  sqlite_opens D (Router.bytes file) = true ->
  let st1 := Router.final (Router.upload_route D st (Some file) now) in
  In (Router.filename file now) (Listing.databases D st1)
  /\ dbPath (fst (Router.select_database D st1
                    (Some (Router.filename file now))))
     = Some (Router.destination D file now)
  /\ files st1 !! Router.destination D file now = Some (Router.bytes file).
Proof.
  intros Hf Hsize Ho.
  rewrite (upload_route_valid D st file now Hf Hsize Ho). simpl.
  split; [|split; [reflexivity|apply lookup_insert_eq]].
  apply databases_spec. split.
  - unfold Listing.listed. rewrite extname_of_filename. exact Hf.
  - apply (readdir_child _ _ (Router.destination D file now)).
    + simpl. rewrite lookup_insert_eq. eauto.
    + rewrite destination_child. apply child_of_app.
Qed.

Lemma accepted_upload_is_listed_witness :
  let st1 :=
    Router.final
      (Router.upload_route Demo.D Demo.busy_state (Some Demo.good)
         1700000000123) in
  Router.filename Demo.good 1700000000123
  = "databaseFile-1700000000123.SQLite"
  /\ In (Router.filename Demo.good 1700000000123)
        (Listing.databases Demo.D st1)
  /\ dbPath (fst (Router.select_database Demo.D st1
                    (Some (Router.filename Demo.good 1700000000123))))
     = Some (Router.destination Demo.D Demo.good 1700000000123)
  /\ files st1 !! Router.destination Demo.D Demo.good 1700000000123
     = Some (Router.bytes Demo.good).
Proof.
  split; [vm_compute; reflexivity|].
  apply (accepted_upload_is_listed Demo.D Demo.busy_state Demo.good
           1700000000123).
  - vm_compute. reflexivity.
  - vm_compute. discriminate.
  - vm_compute. reflexivity.
Defined.

(** X18: a name without a dot has no extension, so the upload filter
    accepts it and the root page lists it when it is an entry of the
    uploads directory. *)
Theorem extensionless_names_accepted (name bytes : string) :
  Listing.no_dot name ->
  Path.extname name = ""
  /\ Router.fileFilter (Router.mkIncoming name bytes) = true
  /\ Listing.listed name = true.
Proof.
  intros Hn. pose proof (extname_no_dot name Hn) as E.
  unfold Router.fileFilter, Listing.listed. simpl. rewrite E.
  now repeat split.
Qed.

Lemma extensionless_names_accepted_witness :
  Path.extname "Makefile_backup" = ""
  /\ Router.fileFilter (Router.mkIncoming "Makefile_backup" "x") = true
  /\ Listing.listed "Makefile_backup" = true.
Proof.
  apply (extensionless_names_accepted "Makefile_backup" "x").
  repeat constructor; discriminate.
Defined.

(** X19: two accepted uploads at different times are stored under
    different names: after both, each file is stored at its own
    destination and the second one is the active database. *)
Theorem uploads_at_distinct_times_coexist (D : deps) (st : state)
    (file1 file2 : Router.incoming) (now1 now2 : Z) :
  0 <= now1 -> 0 <= now2 -> now1 <> now2 ->
  Router.fileFilter file1 = true ->
  Router.size file1 <= Router.fileSize_limit ->
  sqlite_opens D (Router.bytes file1) = true ->
  Router.fileFilter file2 = true ->
  Router.size file2 <= Router.fileSize_limit ->
  sqlite_opens D (Router.bytes file2) = true ->
  let st1 := Router.final (Router.upload_route D st (Some file1) now1) in
  let st2 := Router.final (Router.upload_route D st1 (Some file2) now2) in
  Router.destination D file1 now1 <> Router.destination D file2 now2
  /\ files st2 !! Router.destination D file1 now1 = Some (Router.bytes file1)
  /\ files st2 !! Router.destination D file2 now2 = Some (Router.bytes file2)
  /\ dbPath st2 = Some (Router.destination D file2 now2).
Proof.
  intros Hn1 Hn2 Hne Hf1 Hs1 Ho1 Hf2 Hs2 Ho2.
  assert (Hd : Router.destination D file1 now1
               <> Router.destination D file2 now2).
  { intros E. apply Hne.
    apply (filename_inj file1 now1 file2 now2 Hn1 Hn2).
    symmetry.
    apply (join_plain_name_inj D (Router.filename file1 now1)
             (Router.filename file2 now2));
      try apply filename_no_slash; try apply filename_plain.
    symmetry. exact E. }
  rewrite (upload_route_valid D st file1 now1 Hf1 Hs1 Ho1). simpl.
  rewrite (upload_route_valid D _ file2 now2 Hf2 Hs2 Ho2). simpl.
  split; [assumption|]. split; [|split; [apply lookup_insert_eq|reflexivity]].
  rewrite lookup_insert_ne by congruence. apply lookup_insert_eq.
Qed.

Lemma uploads_at_distinct_times_coexist_witness :
  let st1 :=
    Router.final
      (Router.upload_route Demo.D Demo.empty_state (Some Demo.good) 5) in
  let st2 :=
    Router.final (Router.upload_route Demo.D st1 (Some Demo.good) 6) in
  Router.destination Demo.D Demo.good 5 <> Router.destination Demo.D Demo.good 6
  /\ files st2 !! Router.destination Demo.D Demo.good 5
     = Some (Router.bytes Demo.good)
  /\ files st2 !! Router.destination Demo.D Demo.good 6
     = Some (Router.bytes Demo.good)
  /\ dbPath st2 = Some (Router.destination Demo.D Demo.good 6).
Proof.
  apply (uploads_at_distinct_times_coexist Demo.D Demo.empty_state
           Demo.good Demo.good 5 6);
    try (vm_compute; reflexivity); try (vm_compute; discriminate).
Defined.

(** ** The extensions the filter accepts *)

Section AcceptedExtensions.

Lemma lower_char_slash c :
  Ascii.eqb (Router.lower_char c) Path.slash = Ascii.eqb c Path.slash.
Proof. destruct c as [[] [] [] [] [] [] [] []]; reflexivity. Qed.

Lemma lower_char_dot c :
  Ascii.eqb (Router.lower_char c) Path.dot = Ascii.eqb c Path.dot.
Proof. destruct c as [[] [] [] [] [] [] [] []]; reflexivity. Qed.

Lemma lower_char_clean c :
  Listing.clean_char c -> Listing.clean_char (Router.lower_char c).
Proof.
  intros [Hs Hd]. split; intros E.
  - apply Hs. apply Ascii.eqb_eq. rewrite <- lower_char_slash.
    now apply Ascii.eqb_eq.
  - apply Hd. apply Ascii.eqb_eq. rewrite <- lower_char_dot.
    now apply Ascii.eqb_eq.
Qed.

Lemma toLowerCase_clean w :
  Listing.clean w -> Listing.clean (Router.toLowerCase w).
Proof.
  unfold Listing.clean.
  induction w as [|c w IH]; intros Hw; simpl; [constructor|].
  inversion Hw; subst. constructor; [now apply lower_char_clean|auto].
Qed.

Lemma toLowerCase_dotted w :
  Router.toLowerCase (String Path.dot w)
  = String Path.dot (Router.toLowerCase w).
Proof. reflexivity. Qed.

Lemma substring_full w : substring 0 (String.length w) w = w.
Proof. induction w as [|c w IH]; simpl; [reflexivity|]. now rewrite IH. Qed.

Lemma substring_head_in w : forall j k d r,
  substring j k w = String d r -> In d (list_ascii_of_string w).
Proof.
  induction w as [|c w IH]; intros j k d r H.
  - destruct j, k; discriminate.
  - destruct j as [|j]; simpl in H.
    + destruct k; [discriminate|]. injection H as -> _. now left.
    + right. now apply (IH j k d r).
Qed.

(** On an extension, the anchored pattern can only match all of it. *)
Lemma ends_with_dotted suffix w :
  Listing.clean w ->
  Router.ends_with (String Path.dot suffix) (String Path.dot w) = true ->
  w = suffix.
Proof.
  intros Hw. unfold Router.ends_with.
  rewrite andb_true_iff. intros [Hle Heq].
  apply Nat.leb_le in Hle. apply String.eqb_eq in Heq.
  simpl String.length in *.
  destruct (String.length w - String.length suffix)%nat as [|j] eqn:Ediff.
  - replace (S (String.length w) - S (String.length suffix))%nat with 0%nat
      in Heq by lia.
    assert (El : String.length suffix = String.length w) by lia.
    simpl in Heq. injection Heq as Heq.
    rewrite El, substring_full in Heq. exact Heq.
  - replace (S (String.length w) - S (String.length suffix))%nat with (S j)
      in Heq by lia.
    simpl in Heq. apply substring_head_in in Heq.
    unfold Listing.clean in Hw. rewrite List.Forall_forall in Hw.
    destruct (Hw _ Heq) as [_ Hd]. now contradiction Hd.
Qed.

Lemma filetypes_test_extension w :
  Listing.clean w ->
  Router.filetypes_test (String Path.dot w) = true ->
  In (String Path.dot w) [".sqlite"; ".sqlite3"; ".db"].
Proof.
  intros Hw. unfold Router.filetypes_test. simpl existsb.
  rewrite !orb_true_iff.
  intros [H|[H|[H|H]]]; try discriminate;
    apply (ends_with_dotted _ _ Hw) in H; subst w; simpl; tauto.
Qed.

End AcceptedExtensions.

(** X20: the upload filter accepts a file exactly when the extension of
    its original name is empty or, in lower case, one of ".sqlite",
    ".sqlite3" and ".db"; the listing filter of the root page accepts
    the same names. *)
Theorem fileFilter_accepts_exactly (name bytes : string) :
  (Router.fileFilter (Router.mkIncoming name bytes) = true
   <-> Path.extname name = ""
       \/ In (Router.toLowerCase (Path.extname name))
             [".sqlite"; ".sqlite3"; ".db"])
  /\ Listing.listed name = Router.fileFilter (Router.mkIncoming name bytes).
Proof.
  split; [|reflexivity].
  unfold Router.fileFilter. simpl Router.originalname.
  rewrite orb_true_iff. split.
  - intros [H|H]; [|left; now apply String.eqb_eq].
    destruct (extname_shape name) as [E|(w & Hw & E)]; [now left|].
    right. rewrite E in *. rewrite toLowerCase_dotted in *.
    apply filetypes_test_extension; [|assumption].
    now apply toLowerCase_clean.
  - intros [E|H].
    + right. rewrite E. reflexivity.
    + left. simpl in H.
      destruct H as [<-|[<-|[<-|[]]]]; reflexivity.
Qed.

Example fileFilter_samples :
  Router.fileFilter (Router.mkIncoming "Agent.SQLite3" "") = true
  /\ Router.fileFilter (Router.mkIncoming "notes.db.txt" "") = false
  /\ Router.fileFilter (Router.mkIncoming "report." "") = false
  /\ Router.fileFilter (Router.mkIncoming ".hidden" "") = true
  /\ Router.fileFilter (Router.mkIncoming "a.xdb" "") = false.
Proof. vm_compute. repeat split; reflexivity. Qed.
